(** * xmanager.xm.executables: executable specifications and their names

    A model of [xmanager/xm/executables.py]: the function [_name_from_path]
    and the five [attr.s] classes [PythonContainer], [Container], [Binary],
    [BazelContainer] and [BazelBinary], each with its [name] property.

    Python strings are sequences of Unicode code points; lists and class
    instances live in a heap and are passed by reference, so that the
    sharing of the [dependencies] lists and attribute assignment can be
    stated. The platform is POSIX: [os.sep] is ["/"] and [os.path] is
    [posixpath]. *)

From Stdlib Require Import NArith ZArith Ascii String.
From stdpp Require Import base option list gmap strings.

Open Scope N_scope.

(** ** Python [str] values *)

(** A character is a Unicode code point. *)
Definition char := N.
Definition str := list char.

(** The [str] written by an ASCII literal of the source. *)
Definition lit (s : string) : str :=
  N_of_ascii <$> list_ascii_of_string s.

(** POSIX [os.sep]. *)
Definition os_sep : char := 47.

(** The underscore, the replacement text of [re.sub]. *)
Definition underscore : char := 95.

(** *** Character classes *)

(** The class [[A-Za-z0-9]]. *)
Definition ascii_alnum (c : char) : bool :=
  ((48 <=? c) && (c <=? 57)) || ((65 <=? c) && (c <=? 90))
  || ((97 <=? c) && (c <=? 122)).

(** The class [[A-Za-z0-9_]]. *)
Definition ascii_word (c : char) : bool := ascii_alnum c || (c =? underscore).

(** Alphanumeric code points of the Latin-1 Supplement block
    (U+0080..U+00FF): the letters U+00AA, U+00B5, U+00BA, U+00C0..U+00D6,
    U+00D8..U+00F6, U+00F8..U+00FF, the digits U+00B2, U+00B3, U+00B9 and
    the fractions U+00BC..U+00BE. *)
Definition latin1_alnum (c : char) : bool :=
  (c =? 170) || (c =? 178) || (c =? 179) || (c =? 181) || (c =? 185)
  || (c =? 186) || ((188 <=? c) && (c <=? 190))
  || ((192 <=? c) && (c <=? 214)) || ((216 <=? c) && (c <=? 246))
  || ((248 <=? c) && (c <=? 255)).

(** *** Library functions used by [_name_from_path] *)

(** [s.rstrip(chars)]: [s] without its longest suffix made of characters
    of [chars]. *)
Fixpoint rstrip (chars : list char) (s : str) : str :=
  match s with
  | [] => []
  | c :: t =>
      match rstrip chars t with
      | [] => if bool_decide (c ∈ chars) then [] else [c]
      | t' => c :: t'
      end
  end.

(** [s.rfind(c)]: the highest index at which [c] occurs in [s], or [-1]. *)
Fixpoint rfind (c : char) (s : str) : Z :=
  match s with
  | [] => (-1)%Z
  | x :: t =>
      let r := rfind c t in
      if (0 <=? r)%Z then (r + 1)%Z
      else if x =? c then 0%Z else (-1)%Z
  end.

(** [posixpath.basename(p)]: [i = p.rfind('/') + 1; return p[i:]]. *)
Definition basename (p : str) : str :=
  let i := (rfind os_sep p + 1)%Z in
  drop (Z.to_nat i) p.

(** Where [basename] cuts [s]: just after the last [c]. *)
Definition cut (c : char) (s : str) : nat := Z.to_nat (rfind c s + 1).

(** [re.sub(pattern, repl, s)] for a pattern that is one character class:
    each match is one character, and each is replaced by [repl]. *)
Definition re_sub_class (cls : char -> bool) (repl : str) (s : str) : str :=
  c ← s; if cls c then repl else [c].

(** ** Python values, exceptions and the heap *)

(** A reference to a heap object. *)
Abbreviation loc := nat.

(** The values the module handles. [ModuleName] and [CommandList] are the
    two [NamedTuple] classes of the source: immutable tuples, compared
    field by field, so they are values rather than heap objects. Their
    field annotations are not enforced, so the field is any value. A list
    or an instance of an [attr.s] class is a reference into the heap. *)
Inductive value :=
| VNone
| VStr (s : str)
| VRef (l : loc)
| ModuleName (module_name : value)
| CommandList (commands : value).

Inductive exn := TypeError | AttributeError | FrozenInstanceError.

Inductive result (A : Type) :=
| Ok (a : A)
| Raise (e : exn).
Arguments Ok {A} a.
Arguments Raise {A} e.

#[global] Instance result_ret : MRet result := fun _ a => Ok a.
#[global] Instance result_bind : MBind result := fun _ _ f m =>
  match m with
  | Ok a => f a
  | Raise e => Raise e
  end.

(** The five classes decorated with [@attr.s(auto_attribs=True)]. Their
    base class [core.ExecutableSpec] declares the abstract property
    [name] and no attribute. *)
Inductive pyclass :=
| PythonContainer
| Container
| Binary
| BazelContainer
| BazelBinary.

(** A heap object: a Python list, or an instance with its [__dict__]. *)
Inductive obj :=
| OList (items : list value)
| OInstance (cls : pyclass) (dict : gmap string value).

Abbreviation heap := (list obj).

(** ** The part of [attrs] the module uses *)

(** The default of an attribute: none ([NOTHING], the attribute is a
    required argument), a value, or [attr.Factory(list)]. *)
Inductive default_value :=
| NOTHING
| Default (v : value)
| Factory_list.

Record Attribute := attrib {
  attr_name : string;
  attr_default : default_value;
  attr_converter : option (value -> result value)
}.

(** The arguments of the decorator. [attr.s] leaves [frozen] at [False]
    unless it is passed. *)
Record attr_s_options := { auto_attribs : bool; frozen : bool }.

Definition attr_s (auto_attribs : bool) : attr_s_options :=
  {| auto_attribs := auto_attribs; frozen := false |}.

(** Every class of the module is declared [@attr.s(auto_attribs=True)]. *)
Definition class_options (cls : pyclass) : attr_s_options := attr_s true.

(** *** Argument binding of the generated [__init__]

    The parameters of [__init__] are the attributes in order. A call
    passes positional arguments [args] and keyword arguments [kwargs];
    every binding error is a [TypeError]. *)

(** The argument a call passes for the parameter at position [i] named
    [attr], if it passes one. *)
Definition passed (args : list value) (kwargs : gmap string value)
    (i : nat) (attr : string) : option value :=
  match args !! i with
  | Some v => Some v
  | None => kwargs !! attr
  end.

(** A parameter takes its positional or its keyword argument, not both;
    a parameter with no argument must have a default. *)
Definition bind_param (args : list value) (kwargs : gmap string value)
    (i : nat) (a : Attribute) : result (Attribute * option value) :=
  match args !! i, kwargs !! attr_name a with
  | Some _, Some _ => Raise TypeError
  | Some v, None => Ok (a, Some v)
  | None, Some v => Ok (a, Some v)
  | None, None =>
      match attr_default a with
      | NOTHING => Raise TypeError
      | _ => Ok (a, None)
      end
  end.

Fixpoint bind_params (args : list value) (kwargs : gmap string value)
    (i : nat) (params : list Attribute)
  : result (list (Attribute * option value)) :=
  match params with
  | [] => Ok []
  | a :: params' =>
      b ← bind_param args kwargs i a;
      rest ← bind_params args kwargs (S i) params';
      Ok (b :: rest)
  end.

(** More positional arguments than parameters, or a keyword that names no
    parameter, is an error too. *)
Definition bind_args (params : list Attribute) (args : list value)
    (kwargs : gmap string value)
  : result (list (Attribute * option value)) :=
  if bool_decide (length args ≤ length params)%nat
     && bool_decide (dom kwargs ⊆ list_to_set (attr_name <$> params))
  then bind_params args kwargs 0 params
  else Raise TypeError.

(** *** The body of the generated [__init__] *)

(** The value of an attribute whose argument was left out.
    [attr.Factory(list)] calls [list()]: a new, empty list object. *)
Definition eval_default (d : default_value) (h : heap)
  : result (value * heap) :=
  match d with
  | NOTHING => Raise TypeError
  | Default v => Ok (v, h)
  | Factory_list => Ok (VRef (length h), h ++ [OList []])
  end.

(** Writing an entry of the [__dict__] of an instance. *)
Definition store_attr (self : loc) (attr : string) (v : value) (h : heap)
  : result heap :=
  match h !! self with
  | Some (OInstance cls d) =>
      Ok (<[self := OInstance cls (<[attr := v]> d)]> h)
  | _ => Raise AttributeError
  end.

(** One assignment [self.a = converter(a)] per attribute, in order. *)
Fixpoint init_body (self : loc) (bound : list (Attribute * option value))
    (h : heap) : result heap :=
  match bound with
  | [] => Ok h
  | (a, arg) :: rest =>
      '(v, h1) ← match arg with
                 | Some v => Ok (v, h)
                 | None => eval_default (attr_default a) h
                 end;
      v' ← match attr_converter a with
           | Some f => f v
           | None => Ok v
           end;
      h2 ← store_attr self (attr_name a) v' h1;
      init_body self rest h2
  end.

(** Calling a class whose attributes are [params]: a new instance is
    allocated, then initialised by [__init__]; the call returns a
    reference to it. *)
Definition instantiate (cls : pyclass) (params : list Attribute)
    (args : list value) (kwargs : gmap string value) (h : heap)
  : result (value * heap) :=
  let self := length h in
  bound ← bind_args params args kwargs;
  h' ← init_body self bound (h ++ [OInstance cls ∅]);
  Ok (VRef self, h').

(** *** Reading and assigning attributes *)

(** Reading [self.attr] for an attribute kept in the [__dict__] of the
    instance, as the declared attributes are. The property [name] is not
    kept there: it is read by [name] below. *)
Definition getattr (self : loc) (attr : string) (h : heap) : result value :=
  match h !! self with
  | Some (OInstance _ d) =>
      match d !! attr with
      | Some v => Ok v
      | None => Raise AttributeError
      end
  | _ => Raise AttributeError
  end.

(** The names an assignment does not write to the [__dict__], because
    the class or [object] defines them as data descriptors. The property
    [name] of the five classes has no setter, and [__weakref__] is not
    writable: assigning to them raises [AttributeError]. [__class__]
    takes a class and [__dict__] a dict, and no value of the model is
    one: assigning to them raises [TypeError]. *)
Definition read_only_attrs : list string := ["name"; "__weakref__"].

Definition typed_attrs : list string := ["__class__"; "__dict__"].

(** The statement [self.attr = v] outside [__init__]. [attrs] makes it
    raise for a class declared frozen; otherwise it is the assignment of
    [object]: to the [__dict__], unless the name is a data descriptor. A
    list has no [__dict__]. *)
Definition setattr (self : loc) (attr : string) (v : value) (h : heap)
  : result heap :=
  match h !! self with
  | Some (OInstance cls _) =>
      if frozen (class_options cls) then Raise FrozenInstanceError
      else if bool_decide (attr ∈ read_only_attrs) then Raise AttributeError
      else if bool_decide (attr ∈ typed_attrs) then Raise TypeError
      else store_attr self attr v h
  | Some (OList _) =>
      if bool_decide (attr = "__class__") then Raise TypeError
      else Raise AttributeError
  | None => Raise AttributeError
  end.

(** [xs.append(v)] on a list object. *)
Definition list_append (xs : loc) (v : value) (h : heap) : result heap :=
  match h !! xs with
  | Some (OList items) => Ok (<[xs := OList (items ++ [v])]> h)
  | _ => Raise AttributeError
  end.

(** The items of a list object. *)
Definition list_items (xs : loc) (h : heap) : option (list value) :=
  match h !! xs with
  | Some (OList items) => Some items
  | _ => None
  end.

Section Executables.

(** [str.isalnum] on the code points above U+00FF comes from the
    interpreter's Unicode database, which is a parameter here. *)
Variable isalnum_wide : char -> bool.

(** [utils.get_absolute_path], defined in [xmanager/xm/utils.py]. *)
Variable get_absolute_path : str -> str.

(** [Py_UNICODE_ISALNUM]. *)
Definition unicode_isalnum (c : char) : bool :=
  if c <? 128 then ascii_alnum c
  else if c <? 256 then latin1_alnum c
  else isalnum_wide c.

(** What [\w] matches in a [str] pattern compiled without [re.ASCII]. *)
Definition uni_is_word (c : char) : bool :=
  unicode_isalnum c || (c =? underscore).

(** What [\W] matches: the complement of [\w]. *)
Definition re_W (c : char) : bool := negb (uni_is_word c).

(** ** [_name_from_path]

<<
def _name_from_path(path: str) -> str:
  return re.sub('\\W', '_', os.path.basename(path.rstrip(os.sep)))
>> *)
Definition _name_from_path (path : str) : str :=
  re_sub_class re_W [underscore] (basename (rstrip [os_sep] path)).

(** The call [_name_from_path(v)]. On a [str] it returns the derived
    name. On every other value of the model it does not return: [None],
    a tuple, a list and an instance as constructed have no [rstrip],
    which is an [AttributeError]. Values with an [rstrip] of their own
    ([bytes], where the call raises [TypeError]) are not values of the
    model, and no statement below rests on the kind of the exception. *)
Definition call_name_from_path (v : value) : result value :=
  match v with
  | VStr s => Ok (VStr (_name_from_path s))
  | _ => Raise AttributeError
  end.

(** ** The classes *)

(** The converter of [PythonContainer.path], called on whatever value the
    attribute is given; a value that is not a [str] is not a path. *)
Definition path_converter (v : value) : result value :=
  match v with
  | VStr s => Ok (VStr (get_absolute_path s))
  | _ => Raise TypeError
  end.

(** The attributes each class body declares, in order. *)
Definition class_attrs (cls : pyclass) : list Attribute :=
  match cls with
  | PythonContainer =>
      [ attrib "entrypoint" NOTHING None;
        attrib "path" (Default (VStr (lit "."))) (Some path_converter);
        attrib "base_image" (Default VNone) None;
        attrib "docker_instructions" (Default VNone) None ]
  | Container => [ attrib "image_path" NOTHING None ]
  | Binary =>
      [ attrib "path" NOTHING None;
        attrib "dependencies" Factory_list None ]
  | BazelContainer => [ attrib "label" NOTHING None ]
  | BazelBinary =>
      [ attrib "label" NOTHING None;
        attrib "dependencies" Factory_list None ]
  end.

(** The constructor call [cls(...)]. *)
Definition new (cls : pyclass) (args : list value)
    (kwargs : gmap string value) (h : heap) : result (value * heap) :=
  instantiate cls (class_attrs cls) args kwargs h.

(** *** The [name] properties *)

(** [PythonContainer.name]: [return _name_from_path(self.path)] *)
Definition PythonContainer_name (self : loc) (h : heap) : result value :=
  v ← getattr self "path" h; call_name_from_path v.

(** [Container.name]: [return _name_from_path(self.image_path)] *)
Definition Container_name (self : loc) (h : heap) : result value :=
  v ← getattr self "image_path" h; call_name_from_path v.

(** [Binary.name]: [return _name_from_path(self.path)] *)
Definition Binary_name (self : loc) (h : heap) : result value :=
  v ← getattr self "path" h; call_name_from_path v.

(** [BazelContainer.name]: [return _name_from_path(self.label)] *)
Definition BazelContainer_name (self : loc) (h : heap) : result value :=
  v ← getattr self "label" h; call_name_from_path v.

(** [BazelBinary.name]: [return _name_from_path(self.label)] *)
Definition BazelBinary_name (self : loc) (h : heap) : result value :=
  v ← getattr self "label" h; call_name_from_path v.

(** [self.name]: the property of the class of the instance. *)
Definition name (self : loc) (h : heap) : result value :=
  match h !! self with
  | Some (OInstance PythonContainer _) => PythonContainer_name self h
  | Some (OInstance Container _) => Container_name self h
  | Some (OInstance Binary _) => Binary_name self h
  | Some (OInstance BazelContainer _) => BazelContainer_name self h
  | Some (OInstance BazelBinary _) => BazelBinary_name self h
  | _ => Raise AttributeError
  end.

(** An attribute with no default is a required argument. *)
Definition required (a : Attribute) : bool :=
  match attr_default a with
  | NOTHING => true
  | _ => false
  end.

(** ** The operations of the module

    What the module offers on specifications: calling one of the five
    classes, and reading the [name] of an instance. A read returns a value
    and leaves the heap as it is. *)
Inductive core_op :=
| Construct (cls : pyclass) (args : list value) (kwargs : gmap string value)
| ReadName (self : loc).

Definition run_op (op : core_op) (h : heap) : result (value * heap) :=
  match op with
  | Construct cls args kwargs => new cls args kwargs h
  | ReadName self => v ← name self h; Ok (v, h)
  end.

(** ** Parameters for the examples

    A table with no alphanumeric code point above U+00FF, and a path
    resolution that puts a relative path under the root directory. *)
Definition no_wide_alnum : char -> bool := fun _ => false.

Definition under_root (p : str) : str :=
  match p with
  | 47 :: _ => p
  | _ => os_sep :: p
  end.

(** The heap after [Binary("/bin/a")], and the heap after a following
    [BazelBinary(label="//b:c")]. *)
Definition heap_one_binary : heap :=
  [ OInstance Binary
      (<["dependencies" := VRef 1%nat]> {[ "path" := VStr (lit "/bin/a") ]});
    OList [] ].

Definition heap_two_binaries : heap :=
  heap_one_binary ++
  [ OInstance BazelBinary
      (<["dependencies" := VRef 3%nat]> {[ "label" := VStr (lit "//b:c") ]});
    OList [] ].

(** A heap with a list of instructions, and the heap after
    [PythonContainer(entrypoint=ModuleName("pkg.main"),
    docker_instructions=...)] with that list, under [under_root]. *)
Definition heap_instructions : heap :=
  [ OList [VStr (lit "COPY cifar10/ cifar10"); VStr (lit "WORKDIR cifar10")] ].

Definition heap_python_container : heap :=
  heap_instructions ++
  [ OInstance PythonContainer
      (<["docker_instructions" := VRef 0%nat]>
         (<["base_image" := VNone]>
            (<["path" := VStr (lit "/.")]>
               {[ "entrypoint" := ModuleName (VStr (lit "pkg.main")) ]}))) ].

(** ** Further definitions *)

(** The calls that bind to the parameters [params]: no more positional
    arguments than parameters, every keyword the name of a parameter, no
    parameter given both ways, and every required parameter given. *)
Definition binds (params : list Attribute) (args : list value)
    (kwargs : gmap string value) : Prop :=
  (length args ≤ length params)%nat
  ∧ dom kwargs ⊆ list_to_set (attr_name <$> params)
  ∧ ∀ i a, params !! i = Some a →
      (args !! i = None ∨ kwargs !! attr_name a = None)
      ∧ (required a = true → passed args kwargs i (attr_name a) ≠ None).

(** The attribute the [name] property of each class reads. *)
Definition name_attr (cls : pyclass) : string :=
  match cls with
  | PythonContainer => "path"
  | Container => "image_path"
  | Binary => "path"
  | BazelContainer => "label"
  | BazelBinary => "label"
  end.

(** The two [NamedTuple] classes, each with its one field, which is a
    required parameter of the constructor. *)
Inductive tuple_class := ModuleName_class | CommandList_class.

Definition tuple_fields (t : tuple_class) : list Attribute :=
  match t with
  | ModuleName_class => [ attrib "module_name" NOTHING None ]
  | CommandList_class => [ attrib "commands" NOTHING None ]
  end.

Definition make_tuple (t : tuple_class) (v : value) : value :=
  match t with
  | ModuleName_class => ModuleName v
  | CommandList_class => CommandList v
  end.

(** The constructor calls [ModuleName(...)] and [CommandList(...)]. *)
Definition tuple_new (t : tuple_class) (args : list value)
    (kwargs : gmap string value) : result value :=
  bound ← bind_args (tuple_fields t) args kwargs;
  match bound with
  | [(_, Some v)] => Ok (make_tuple t v)
  | _ => Raise TypeError
  end.

(** A sequence of operations of the module, each on the heap the one
    before it left. *)
Fixpoint run_ops (ops : list core_op) (h : heap) : result heap :=
  match ops with
  | [] => Ok h
  | op :: ops' => '(_, h1) ← run_op op h; run_ops ops' h1
  end.

(** The heap after [Binary("/bin/a", deps)] and a following
    [BazelBinary("//b:c", deps)], where [deps] is the list of
    [heap_instructions]. *)
Definition heap_shared_dependencies : heap :=
  heap_instructions ++
  [ OInstance Binary
      (<["dependencies" := VRef 0%nat]> {[ "path" := VStr (lit "/bin/a") ]});
    OInstance BazelBinary
      (<["dependencies" := VRef 0%nat]> {[ "label" := VStr (lit "//b:c") ]}) ].

(** ** Facts about the string functions *)

Lemma rstrip_replicate (chars : list char) (c : char) (n : nat) :
  c ∈ chars → rstrip chars (replicate n c) = [].
Proof.
  intros Hc. induction n as [|n IH]; simpl; [done|].
  rewrite IH. by rewrite bool_decide_eq_true_2.
Qed.

Lemma rstrip_app_replicate (chars : list char) (c : char) (s : str) (n : nat) :
  c ∈ chars → rstrip chars (s ++ replicate n c) = rstrip chars s.
Proof.
  intros Hc. induction s as [|x t IH]; simpl.
  - by apply rstrip_replicate.
  - by rewrite IH.
Qed.

Lemma rstrip_split (chars : list char) (s : str) :
  ∃ suf, s = rstrip chars s ++ suf ∧ Forall (λ c, c ∈ chars) suf.
Proof.
  induction s as [|x t (suf & Heq & Hsuf)]; simpl.
  - by exists [].
  - destruct (rstrip chars t) as [|y t'] eqn:Ht.
    + case_bool_decide as Hx.
      * exists (x :: suf). simpl in Heq. subst t. split; [done|].
        constructor; [exact Hx | exact Hsuf].
      * exists suf. simpl in Heq. by subst t.
    + exists suf. split; [|done]. simpl in *. by f_equal.
Qed.

Lemma rstrip_last (chars : list char) (s : str) (c : char) :
  last (rstrip chars s) = Some c → c ∉ chars.
Proof.
  induction s as [|x t IH]; simpl; [done|].
  destruct (rstrip chars t) as [|y t'] eqn:Ht.
  - case_bool_decide as Hx; simpl; [done|]. by intros [= <-].
  - intros Hl. apply IH. exact Hl.
Qed.

Lemma rstrip_id (chars : list char) (s : str) :
  Forall (λ c, c ∉ chars) s → rstrip chars s = s.
Proof.
  induction 1 as [|x t Hx _ IH]; simpl; [done|].
  rewrite IH. destruct t; [|done]. by rewrite bool_decide_eq_false_2.
Qed.

Lemma rfind_ge (c : char) (s : str) : (-1 ≤ rfind c s)%Z.
Proof.
  induction s as [|x t IH]; simpl; [lia|].
  destruct (Z.leb_spec 0 (rfind c t)); [lia|]. destruct (x =? c); lia.
Qed.

Lemma cut_cons (c x : char) (t : str) :
  cut c (x :: t) =
    match cut c t with
    | S n => S (S n)
    | O => if x =? c then 1%nat else 0%nat
    end.
Proof.
  unfold cut. simpl. pose proof (rfind_ge c t) as Hge.
  destruct (Z.leb_spec 0 (rfind c t)) as [Hle|Hlt].
  - replace (rfind c t + 1 + 1)%Z with (Z.succ (rfind c t + 1)) by lia.
    rewrite Z2Nat.inj_succ by lia.
    destruct (Z.to_nat (rfind c t + 1)) eqn:E; [lia|done].
  - replace (rfind c t) with (-1)%Z by lia. simpl.
    by destruct (x =? c).
Qed.

Lemma cut_spec (c : char) (s : str) :
  (c ∉ drop (cut c s) s)
  ∧ (cut c s = 0%nat ∨ last (take (cut c s) s) = Some c).
Proof.
  induction s as [|x t [IHd IHl]].
  - split; [|by left]. unfold cut; simpl. apply not_elem_of_nil.
  - rewrite cut_cons. destruct (cut c t) as [|n] eqn:E.
    + destruct (N.eqb_spec x c) as [->|Hne]; simpl.
      * split; [|by right]. by rewrite drop_0 in *.
      * split; [|by left]. rewrite drop_0 in IHd.
        by apply not_elem_of_cons.
    + split; [done|]. right. destruct IHl as [|IHl]; [done|].
      change (take (S (S n)) (x :: t)) with (x :: take (S n) t).
      rewrite last_cons, IHl. done.
Qed.

Lemma basename_split (p : str) :
  ∃ dir, p = dir ++ basename p
         ∧ (dir = [] ∨ last dir = Some os_sep)
         ∧ os_sep ∉ basename p.
Proof.
  exists (take (cut os_sep p) p).
  change (basename p) with (drop (cut os_sep p) p).
  destruct (cut_spec os_sep p) as [Hd Hl].
  split; [by rewrite take_drop|]. split; [|done].
  destruct Hl as [->|Hl]; [by left|by right].
Qed.

Lemma basename_id (p : str) : os_sep ∉ p → basename p = p.
Proof.
  intros Hp. change (basename p) with (drop (cut os_sep p) p).
  destruct (cut_spec os_sep p) as [_ [->|Hl]]; [done|].
  exfalso. apply Hp. apply last_Some_elem_of in Hl.
  rewrite <- (take_drop (cut os_sep p) p). apply elem_of_app. by left.
Qed.

Lemma re_sub_class_fmap (cls : char → bool) (u : char) (s : str) :
  re_sub_class cls [u] s = (λ c, if cls c then u else c) <$> s.
Proof.
  unfold re_sub_class. induction s as [|x t IH]; [done|].
  rewrite bind_cons, IH, fmap_cons. by destruct (cls x).
Qed.


Lemma rstrip_last_id (chars : list char) (s : str) :
  (∀ c, last s = Some c → c ∉ chars) → rstrip chars s = s.
Proof.
  induction s as [|x t IH]; [done|]. intros Hl. simpl.
  destruct t as [|y t'].
  - simpl. rewrite bool_decide_eq_false_2; [done|]. by apply Hl.
  - rewrite IH; [done|]. intros c Hc. apply Hl. exact Hc.
Qed.

Lemma cut_notin (c : char) (s : str) : c ∉ s → cut c s = 0%nat.
Proof.
  intros Hs. destruct (cut_spec c s) as [_ [->|Hl]]; [done|].
  exfalso. apply Hs. apply last_Some_elem_of in Hl.
  rewrite <- (take_drop (cut c s) s). apply elem_of_app. by left.
Qed.

Lemma cut_app (c : char) (dir base : str) :
  c ∉ base → last dir = Some c → cut c (dir ++ base) = length dir.
Proof.
  intros Hb. induction dir as [|x d IH]; [done|]. intros Hl.
  change ((x :: d) ++ base) with (x :: (d ++ base)). rewrite cut_cons.
  destruct d as [|y d'].
  - simpl in Hl. injection Hl as ->. simpl. rewrite (cut_notin _ _ Hb).
    by rewrite N.eqb_refl.
  - rewrite IH by exact Hl. done.
Qed.

Lemma basename_app (dir base : str) :
  os_sep ∉ base → dir = [] ∨ last dir = Some os_sep →
  basename (dir ++ base) = base.
Proof.
  intros Hb [->|Hl]; [by apply basename_id|].
  change (basename (dir ++ base))
    with (drop (cut os_sep (dir ++ base)) (dir ++ base)).
  rewrite (cut_app _ _ _ Hb Hl). by rewrite drop_app_length.
Qed.

Lemma Forall_sep_replicate (s : str) :
  Forall (λ c, c ∈ [os_sep]) s → s = replicate (length s) os_sep.
Proof.
  induction 1 as [|x t Hx _ IH]; [done|]. simpl.
  apply list_elem_of_singleton in Hx. by rewrite Hx, <- IH.
Qed.

(** Every path is a directory part, a final component and trailing
    separators, and [basename] after [rstrip] is the final component. *)
Lemma path_split (p : str) :
  ∃ (dir base : str) (n : nat),
    p = dir ++ base ++ replicate n os_sep
    ∧ (dir = [] ∨ last dir = Some os_sep)
    ∧ (os_sep ∉ base)
    ∧ (base = [] → dir = [])
    ∧ basename (rstrip [os_sep] p) = base.
Proof.
  destruct (rstrip_split [os_sep] p) as (suf & Hp & Hsuf).
  destruct (basename_split (rstrip [os_sep] p)) as (dir & Hr & Hdir & Hbase).
  exists dir, (basename (rstrip [os_sep] p)), (length suf).
  split; [|split; [done|split; [done|split; [|done]]]].
  - rewrite <- (Forall_sep_replicate _ Hsuf), app_assoc, <- Hr. exact Hp.
  - intros Hnil. destruct Hdir as [|Hl]; [done|]. exfalso.
    rewrite Hnil, app_nil_r in Hr. rewrite <- Hr in Hl.
    apply (rstrip_last _ _ _ Hl). by apply list_elem_of_singleton.
Qed.

Lemma path_split_basename (dir base : str) (n : nat) :
  dir = [] ∨ last dir = Some os_sep → os_sep ∉ base → (base = [] → dir = []) →
  basename (rstrip [os_sep] (dir ++ base ++ replicate n os_sep)) = base.
Proof.
  intros Hdir Hbase Hnil.
  rewrite app_assoc, rstrip_app_replicate by (by apply list_elem_of_singleton).
  rewrite rstrip_last_id; [by apply basename_app|].
  intros c Hc Hin. apply list_elem_of_singleton in Hin. subst c.
  destruct base as [|b base'] using rev_ind.
  - rewrite (Hnil eq_refl) in Hc. done.
  - rewrite app_assoc, last_snoc in Hc. injection Hc as ->.
    apply Hbase. apply elem_of_app. right. by apply list_elem_of_singleton.
Qed.

Lemma name_from_path_fmap (p : str) :
  _name_from_path p =
    (λ c, if uni_is_word c then c else underscore)
      <$> basename (rstrip [os_sep] p).
Proof.
  unfold _name_from_path. rewrite re_sub_class_fmap.
  apply list_fmap_ext. intros _ c _. unfold re_W.
  by destruct (uni_is_word c).
Qed.

Lemma ascii_word_uni (c : char) : ascii_word c = true → uni_is_word c = true.
Proof.
  unfold ascii_word, uni_is_word, unicode_isalnum, ascii_alnum, underscore.
  intros H. destruct (N.ltb_spec c 128); [exact H|].
  repeat (apply orb_prop in H as [H|H] || apply andb_prop in H as [? H]);
    repeat match goal with
    | H : (_ <=? _) = true |- _ => apply N.leb_le in H
    | H : (_ =? _) = true |- _ => apply N.eqb_eq in H
    end; lia.
Qed.

Lemma uni_word_ascii (c : char) :
  c < 128 → uni_is_word c = true → ascii_word c = true.
Proof.
  unfold ascii_word, uni_is_word, unicode_isalnum. intros Hc.
  by destruct (N.ltb_spec c 128); [|lia].
Qed.

Lemma ascii_word_not_sep : ascii_word os_sep = false.
Proof. reflexivity. Qed.

Lemma uni_word_underscore : uni_is_word underscore = true.
Proof. reflexivity. Qed.

(** ** The derived name *)

(** C1 (as amended): [_name_from_path] drops the trailing separators,
    keeps the final path component, and replaces each character of it
    that [\w] does not match by one underscore, character by character:
    the name has the length of the component. On ["//foo/bar:image.tar"]
    it returns ["bar_image_tar"]. *)
Theorem name_from_path_replaces_each_character :
  (∀ p : str, ∃ (dir base : str) (n : nat),
      p = dir ++ base ++ replicate n os_sep
      ∧ (dir = [] ∨ last dir = Some os_sep)
      ∧ (os_sep ∉ base)
      ∧ (base = [] → dir = []))
  ∧ (∀ (dir base : str) (n : nat),
      dir = [] ∨ last dir = Some os_sep →
      os_sep ∉ base →
      (base = [] → dir = []) →
      _name_from_path (dir ++ base ++ replicate n os_sep)
        = (λ c, if uni_is_word c then c else underscore) <$> base
      ∧ length (_name_from_path (dir ++ base ++ replicate n os_sep))
        = length base)
  ∧ _name_from_path (lit "//foo/bar:image.tar") = lit "bar_image_tar"
  ∧ _name_from_path (lit "a--b") = lit "a__b".
Proof.
  split; [|split; [|split; reflexivity]].
  - intros p. destruct (path_split p) as (dir & base & n & H1 & H2 & H3 & H4 & _).
    by exists dir, base, n.
  - intros dir base n Hdir Hbase Hnil.
    rewrite name_from_path_fmap, path_split_basename by done.
    split; [done|]. by rewrite length_fmap.
Qed.

(** C3 (as amended): every character of the derived name is a word
    character in the sense of [\w] (a Unicode alphanumeric or the
    underscore); when the input is ASCII, every character of the name is
    in [[A-Za-z0-9_]]. *)
Theorem name_from_path_word_characters (p : str) :
  Forall (λ c, uni_is_word c = true) (_name_from_path p)
  ∧ (Forall (λ c, c < 128) p →
     Forall (λ c, ascii_word c = true) (_name_from_path p)).
Proof.
  rewrite name_from_path_fmap.
  destruct (path_split p) as (dir & base & n & Hp & _ & _ & _ & ->).
  split.
  - apply Forall_fmap, Forall_forall. intros c _. simpl.
    destruct (uni_is_word c) eqn:E; [done|]. apply uni_word_underscore.
  - intros Hascii. apply Forall_fmap, Forall_forall. intros c Hc. simpl.
    destruct (uni_is_word c) eqn:E; [|done].
    apply uni_word_ascii; [|done].
    rewrite Forall_forall in Hascii. apply Hascii. rewrite Hp.
    apply elem_of_app. right. apply elem_of_app. by left.
Qed.

(** C4: appending any number of separators to a path does not change the
    derived name. *)
Theorem name_from_path_trailing_separators (p : str) (n : nat) :
  _name_from_path (p ++ replicate n os_sep) = _name_from_path p.
Proof.
  unfold _name_from_path.
  by rewrite rstrip_app_replicate by (by apply list_elem_of_singleton).
Qed.

Lemma name_from_path_nil_iff (p : str) :
  _name_from_path p = [] ↔ Forall (λ c, c = os_sep) p.
Proof.
  rewrite name_from_path_fmap. split.
  - intros Hnil. apply fmap_nil_inv in Hnil.
    destruct (path_split p) as (dir & base & n & Hp & _ & _ & Hd & Hb).
    rewrite Hnil in Hb. subst base. rewrite (Hd eq_refl) in Hp. simpl in Hp.
    rewrite Hp. by apply Forall_replicate.
  - intros Hall.
    assert (p = replicate (length p) os_sep) as ->.
    { apply Forall_sep_replicate. eapply Forall_impl; [exact Hall|].
      intros c ->. by apply list_elem_of_singleton. }
    rewrite rstrip_replicate by (by apply list_elem_of_singleton). done.
Qed.

(** C6: on a string of characters of [[A-Za-z0-9_]] the derived name is
    the basename, which is the string itself; and
    [_name_from_path("/a/b/c-d.txt")] is ["c_d_txt"]. *)
Theorem name_from_path_word_identity :
  (∀ p : str, Forall (λ c, ascii_word c = true) p →
     _name_from_path p = basename p ∧ basename p = p)
  ∧ _name_from_path (lit "/a/b/c-d.txt") = lit "c_d_txt".
Proof.
  split; [|reflexivity]. intros p Hp.
  assert (os_sep ∉ p) as Hsep.
  { intros Hin. rewrite Forall_forall in Hp. apply Hp in Hin.
    by rewrite ascii_word_not_sep in Hin. }
  rewrite name_from_path_fmap, rstrip_id, basename_id; try done.
  - split; [|done]. rewrite <- (list_fmap_id p) at 2.
    apply list_fmap_ext. intros i c Hc. simpl.
    rewrite ascii_word_uni; [done|].
    rewrite Forall_forall in Hp. apply Hp. by eapply list_elem_of_lookup_2.
  - eapply Forall_impl; [exact Hp|]. intros c Hc Hin.
    apply list_elem_of_singleton in Hin. subst c.
    by rewrite ascii_word_not_sep in Hc.
Qed.


(** ** Facts about construction *)

Lemma store_attr_at (h0 rest : heap) (cls : pyclass) (d : gmap string value)
    (attr : string) (v : value) :
  store_attr (length h0) attr v (h0 ++ OInstance cls d :: rest)
  = Ok (h0 ++ OInstance cls (<[attr:=v]> d) :: rest).
Proof.
  unfold store_attr. rewrite list_lookup_middle by done. f_equal.
  rewrite <- (Nat.add_0_r (length h0)) at 1. by rewrite insert_app_r.
Qed.

Lemma getattr_at (h0 rest : heap) (cls : pyclass) (d : gmap string value)
    (attr : string) :
  getattr (length h0) attr (h0 ++ OInstance cls d :: rest)
  = match d !! attr with Some v => Ok v | None => Raise AttributeError end.
Proof. unfold getattr. by rewrite list_lookup_middle. Qed.

(** Case analysis on the first computation of a sequence that returns:
    it returned too. *)
Ltac bind_inv H :=
  match type of H with
  | (?m ≫= _) = Ok _ =>
      let E := fresh "E" in
      destruct m eqn:E; simpl in H; [|discriminate H]
  end.

Lemma eval_default_frame (d : default_value) (h h1 : heap) (v : value) :
  eval_default d h = Ok (v, h1) → ∃ fresh, h1 = h ++ fresh.
Proof.
  destruct d; simpl; intros H; [done| |]; injection H as <- <-.
  - exists []. by rewrite app_nil_r.
  - by eexists.
Qed.

(** [__init__] writes to the new instance and allocates after it: the
    objects that were there before stay as they were. *)
Lemma init_body_frame (h0 : heap) (cls : pyclass)
    (bound : list (Attribute * option value)) :
  ∀ (d : gmap string value) (rest h' : heap),
    init_body (length h0) bound (h0 ++ OInstance cls d :: rest) = Ok h' →
    ∃ d' rest', h' = h0 ++ OInstance cls d' :: rest'.
Proof.
  induction bound as [|[a arg] bound IH]; intros d rest h' H; simpl in H.
  - injection H as <-. eauto.
  - bind_inv H. destruct a0 as [v h1].
    assert (∃ fresh, h1 = h0 ++ OInstance cls d :: (rest ++ fresh))
      as [fresh ->].
    { destruct arg as [v0|].
      - injection E as _ <-. exists []. by rewrite app_nil_r.
      - apply eval_default_frame in E as [fresh ->]. exists fresh.
        by rewrite <- app_assoc. }
    bind_inv H. rewrite store_attr_at in H. simpl in H. by eapply IH.
Qed.

Lemma instantiate_frame (cls : pyclass) (params : list Attribute)
    (args : list value) (kwargs : gmap string value) (h h' : heap) (r : value) :
  instantiate cls params args kwargs h = Ok (r, h') →
  r = VRef (length h) ∧ ∃ d rest, h' = h ++ OInstance cls d :: rest.
Proof.
  unfold instantiate. intros H. bind_inv H. bind_inv H.
  injection H as <- <-. split; [done|]. by eapply init_body_frame.
Qed.

(** Every error of argument binding is a [TypeError]. *)
Lemma bind_params_raise (args : list value) (kwargs : gmap string value)
    (params : list Attribute) :
  ∀ (i : nat) (e : exn), bind_params args kwargs i params = Raise e → e = TypeError.
Proof.
  induction params as [|a params IH]; intros i e H; simpl in H; [done|].
  unfold bind_param in H.
  destruct (args !! i), (kwargs !! attr_name a), (attr_default a);
    simpl in H; try (by injection H);
    (destruct (bind_params args kwargs (S i) params) eqn:E; simpl in H;
     [done | injection H as <-; by eapply IH]).
Qed.

(** When binding succeeds, each parameter has the argument passed for it,
    and a parameter with no argument has a default. *)
Lemma bind_params_Ok (args : list value) (kwargs : gmap string value)
    (params : list Attribute) :
  ∀ (i : nat) (bound : list (Attribute * option value)),
    bind_params args kwargs i params = Ok bound →
    bound = imap (λ j a, (a, passed args kwargs (i + j) (attr_name a))) params
    ∧ ∀ j a, params !! j = Some a →
        passed args kwargs (i + j) (attr_name a) = None →
        attr_default a ≠ NOTHING.
Proof.
  induction params as [|a params IH]; intros i bound H; simpl in H.
  - injection H as <-. split; [done|]. intros j a Hj. done.
  - bind_inv H. rename a0 into b. bind_inv H.
    injection H as <-. destruct (IH _ _ E0) as [-> Hreq].
    assert (b = (a, passed args kwargs i (attr_name a))
            ∧ (passed args kwargs i (attr_name a) = None →
               attr_default a ≠ NOTHING)) as [-> Ha].
    { unfold bind_param, passed in *.
      destruct (args !! i), (kwargs !! attr_name a), (attr_default a);
        simplify_eq; done. }
    split.
    + simpl. rewrite Nat.add_0_r. f_equal. apply imap_ext.
      intros j x _. simpl. by rewrite Nat.add_succ_r.
    + intros [|j] a' Hj Hp; simpl in Hj.
      * injection Hj as <-. rewrite Nat.add_0_r in Hp. by apply Ha.
      * eapply Hreq; [exact Hj|]. by rewrite Nat.add_succ_r in Hp.
Qed.

Lemma bind_args_Ok (params : list Attribute) (args : list value)
    (kwargs : gmap string value) (bound : list (Attribute * option value)) :
  bind_args params args kwargs = Ok bound →
  bound = imap (λ j a, (a, passed args kwargs j (attr_name a))) params
  ∧ ∀ j a, params !! j = Some a →
      passed args kwargs j (attr_name a) = None → attr_default a ≠ NOTHING.
Proof.
  unfold bind_args. destruct (_ && _); [|done]. apply bind_params_Ok.
Qed.

Lemma bind_args_raise (params : list Attribute) (args : list value)
    (kwargs : gmap string value) (e : exn) :
  bind_args params args kwargs = Raise e → e = TypeError.
Proof.
  unfold bind_args. destruct (_ && _); [|by intros [= <-]].
  apply bind_params_raise.
Qed.


Lemma instantiate_inv (cls : pyclass) (params : list Attribute)
    (args : list value) (kwargs : gmap string value) (h h' : heap) (r : value) :
  instantiate cls params args kwargs h = Ok (r, h') →
  r = VRef (length h)
  ∧ init_body (length h)
      (imap (λ j a, (a, passed args kwargs j (attr_name a))) params)
      (h ++ [OInstance cls ∅]) = Ok h'
  ∧ ∀ j a, params !! j = Some a →
      passed args kwargs j (attr_name a) = None → attr_default a ≠ NOTHING.
Proof.
  unfold instantiate. intros H. bind_inv H.
  apply bind_args_Ok in E as [-> Hreq]. bind_inv H.
  by injection H as <- <-.
Qed.

(** A class with one required attribute: [Container], [BazelContainer]. *)
Lemma instantiate_wrapper_inv (cls : pyclass) (attr : string)
    (args : list value) (kwargs : gmap string value) (h h' : heap) (r : value) :
  instantiate cls [attrib attr NOTHING None] args kwargs h = Ok (r, h') →
  ∃ v, passed args kwargs 0 attr = Some v
       ∧ r = VRef (length h)
       ∧ h' = h ++ [OInstance cls (<[attr:=v]> ∅)].
Proof.
  intros H. apply instantiate_inv in H as (-> & H & Hreq).
  destruct (passed args kwargs 0 attr) as [v|] eqn:Ev.
  - exists v. simpl in H. rewrite Ev in H. simpl in H.
    rewrite store_attr_at in H. simpl in H. by injection H as <-.
  - by destruct (Hreq 0%nat _ eq_refl Ev).
Qed.

(** A class with one required attribute and a [dependencies] list:
    [Binary], [BazelBinary]. *)
Lemma instantiate_binary_inv (cls : pyclass) (attr : string)
    (args : list value) (kwargs : gmap string value) (h h' : heap) (r : value) :
  instantiate cls
    [attrib attr NOTHING None; attrib "dependencies" Factory_list None]
    args kwargs h = Ok (r, h') →
  ∃ v, passed args kwargs 0 attr = Some v
       ∧ r = VRef (length h)
       ∧ match passed args kwargs 1 "dependencies" with
         | Some deps =>
             h' = h ++ [OInstance cls
                          (<["dependencies":=deps]> (<[attr:=v]> ∅))]
         | None =>
             h' = h ++ [OInstance cls
                          (<["dependencies":=VRef (S (length h))]>
                             (<[attr:=v]> ∅));
                        OList []]
         end.
Proof.
  intros H. apply instantiate_inv in H as (-> & H & Hreq).
  destruct (passed args kwargs 0 attr) as [v|] eqn:Ev.
  - exists v. simpl in H. rewrite Ev in H. simpl in H.
    rewrite store_attr_at in H. simpl in H.
    destruct (passed args kwargs 1 "dependencies") as [deps|]; simpl in H.
    + rewrite store_attr_at in H. simpl in H. by injection H as <-.
    + rewrite <- app_assoc in H. simpl in H.
      rewrite store_attr_at in H. simpl in H. injection H as <-.
      rewrite length_app. simpl. by rewrite Nat.add_1_r.
  - by destruct (Hreq 0%nat _ eq_refl Ev).
Qed.

Lemma new_PythonContainer_inv (args : list value) (kwargs : gmap string value)
    (h h' : heap) (r : value) :
  new PythonContainer args kwargs h = Ok (r, h') →
  ∃ e s, passed args kwargs 0 "entrypoint" = Some e
         ∧ default (VStr (lit ".")) (passed args kwargs 1 "path") = VStr s
         ∧ r = VRef (length h)
         ∧ h' = h ++ [OInstance PythonContainer
             (<["docker_instructions" :=
                  default VNone (passed args kwargs 3 "docker_instructions")]>
                (<["base_image" :=
                     default VNone (passed args kwargs 2 "base_image")]>
                   (<["path" := VStr (get_absolute_path s)]>
                      (<["entrypoint" := e]> ∅))))].
Proof.
  intros H. apply instantiate_inv in H as (-> & H & Hreq).
  destruct (passed args kwargs 0 "entrypoint") as [e|] eqn:Ee;
    [|by destruct (Hreq 0%nat _ eq_refl Ee)].
  exists e. simpl in H. rewrite Ee in H. simpl in H.
  rewrite store_attr_at in H. simpl in H.
  destruct (passed args kwargs 1 "path") as [[|s| | |]|];
    destruct (passed args kwargs 2 "base_image");
    destruct (passed args kwargs 3 "docker_instructions");
    simpl in H; try done;
    repeat (rewrite store_attr_at in H; simpl in H);
    injection H as <-; by eexists.
Qed.

Lemma name_at (h0 rest : heap) (cls : pyclass) (d : gmap string value) :
  name (length h0) (h0 ++ OInstance cls d :: rest)
  = match cls with
    | PythonContainer => PythonContainer_name
    | Container => Container_name
    | Binary => Binary_name
    | BazelContainer => BazelContainer_name
    | BazelBinary => BazelBinary_name
    end (length h0) (h0 ++ OInstance cls d :: rest).
Proof. unfold name. rewrite list_lookup_middle by done. by destruct cls. Qed.


Lemma wrapper_name (cls : pyclass) (attr : string) (h rest : heap)
    (d : gmap string value) (s : str) :
  d !! attr = Some (VStr s) →
  (v ← getattr (length h) attr (h ++ OInstance cls d :: rest);
   call_name_from_path v) = Ok (VStr (_name_from_path s)).
Proof. intros Hd. by rewrite getattr_at, Hd. Qed.

(** ** The classes and their names *)

(** C2: the [name] of a constructed instance is [_name_from_path] of its
    identifying string: the [image_path] of a [Container], the [path] of
    a [Binary], the [label] of a [BazelContainer] or [BazelBinary], and
    for a [PythonContainer] the stored path, which is
    [get_absolute_path] of the path passed (of ["."] when none is). *)
Theorem name_is_derived_from_identifying_string
    (args : list value) (kwargs : gmap string value) (h h' : heap)
    (self : loc) :
  (new Container args kwargs h = Ok (VRef self, h') →
   ∀ s, passed args kwargs 0 "image_path" = Some (VStr s) →
        name self h' = Ok (VStr (_name_from_path s)))
  ∧ (new Binary args kwargs h = Ok (VRef self, h') →
     ∀ s, passed args kwargs 0 "path" = Some (VStr s) →
          name self h' = Ok (VStr (_name_from_path s)))
  ∧ (new BazelContainer args kwargs h = Ok (VRef self, h') →
     ∀ s, passed args kwargs 0 "label" = Some (VStr s) →
          name self h' = Ok (VStr (_name_from_path s)))
  ∧ (new BazelBinary args kwargs h = Ok (VRef self, h') →
     ∀ s, passed args kwargs 0 "label" = Some (VStr s) →
          name self h' = Ok (VStr (_name_from_path s)))
  ∧ (new PythonContainer args kwargs h = Ok (VRef self, h') →
     ∃ s, default (VStr (lit ".")) (passed args kwargs 1 "path") = VStr s
          ∧ getattr self "path" h' = Ok (VStr (get_absolute_path s))
          ∧ name self h'
            = Ok (VStr (_name_from_path (get_absolute_path s)))).
Proof.
  repeat split.
  - intros H s Hs. apply instantiate_wrapper_inv in H as (v & Hv & [= ->] & ->).
    rewrite Hs in Hv. injection Hv as <-. rewrite name_at.
    apply wrapper_name. by rewrite lookup_insert_eq.
  - intros H s Hs. apply instantiate_binary_inv in H as (v & Hv & [= ->] & H).
    rewrite Hs in Hv. injection Hv as <-.
    destruct (passed args kwargs 1 "dependencies"); subst h';
      rewrite name_at; apply wrapper_name;
      by rewrite lookup_insert_ne, lookup_insert_eq by done.
  - intros H s Hs. apply instantiate_wrapper_inv in H as (v & Hv & [= ->] & ->).
    rewrite Hs in Hv. injection Hv as <-. rewrite name_at.
    apply wrapper_name. by rewrite lookup_insert_eq.
  - intros H s Hs. apply instantiate_binary_inv in H as (v & Hv & [= ->] & H).
    rewrite Hs in Hv. injection Hv as <-.
    destruct (passed args kwargs 1 "dependencies"); subst h';
      rewrite name_at; apply wrapper_name;
      by rewrite lookup_insert_ne, lookup_insert_eq by done.
  - intros H. apply new_PythonContainer_inv in H as (e & s & _ & Hs & [= ->] & ->).
    exists s. split; [done|].
    assert ((<["docker_instructions" :=
                default VNone (passed args kwargs 3 "docker_instructions")]>
              (<["base_image" :=
                   default VNone (passed args kwargs 2 "base_image")]>
                 (<["path" := VStr (get_absolute_path s)]>
                    (<["entrypoint" := e]> (∅ : gmap string value)))))
              !! "path" = Some (VStr (get_absolute_path s))) as Hd.
    { by rewrite !lookup_insert_ne, lookup_insert_eq by done. }
    split.
    + by rewrite getattr_at, Hd.
    + rewrite name_at. by apply wrapper_name.
Qed.

Lemma name_instance (self : loc) (h : heap) (cls : pyclass)
    (d : gmap string value) :
  h !! self = Some (OInstance cls d) →
  name self h
  = match d !! name_attr cls with
    | Some v => call_name_from_path v
    | None => Raise AttributeError
    end.
Proof.
  intros Hs. unfold name, PythonContainer_name, Container_name, Binary_name,
    BazelContainer_name, BazelBinary_name, getattr. rewrite Hs.
  destruct cls; simpl; by destruct (d !! _).
Qed.

(** C5 (as amended): the derived name is empty exactly when the string
    consists of separators only (the empty string included). The [name]
    of an instance of any of the five classes is the derived name of the
    string its identifying attribute holds, as it is: it is the empty
    string exactly when that string consists of separators only, and no
    variant puts another name in its place. *)
Theorem derived_name_empty_iff_only_separators :
  (∀ p : str, _name_from_path p = [] ↔ Forall (λ c, c = os_sep) p)
  ∧ (∀ (self : loc) (h : heap) (cls : pyclass) (d : gmap string value)
       (s : str),
       h !! self = Some (OInstance cls d) →
       d !! name_attr cls = Some (VStr s) →
       name self h = Ok (VStr (_name_from_path s))
       ∧ (name self h = Ok (VStr []) ↔ Forall (λ c, c = os_sep) s)).
Proof.
  split; [exact name_from_path_nil_iff|].
  intros self h cls d s Hs Hd.
  rewrite (name_instance _ _ _ _ Hs), Hd. simpl. split; [done|].
  rewrite <- name_from_path_nil_iff. split; [by intros [= ->]|by intros ->].
Qed.

(** C7: a call that passes no argument for an attribute without default
    raises [TypeError] and returns no instance. The attributes without
    default are [entrypoint], [image_path], [path], [label] and [label]. *)
Theorem missing_required_attribute_raises :
  (∀ (cls : pyclass) (i : nat) (a : Attribute) (args : list value)
     (kwargs : gmap string value) (h : heap),
     class_attrs cls !! i = Some a →
     required a = true →
     passed args kwargs i (attr_name a) = None →
     new cls args kwargs h = Raise TypeError)
  ∧ (∀ cls : pyclass,
       attr_name <$> List.filter required (class_attrs cls)
       = match cls with
         | PythonContainer => ["entrypoint"]
         | Container => ["image_path"]
         | Binary => ["path"]
         | BazelContainer | BazelBinary => ["label"]
         end).
Proof.
  split; [|by intros []].
  intros cls i a args kwargs h Hi Hreq Hp. unfold new, instantiate.
  destruct (bind_args (class_attrs cls) args kwargs) as [bound|e] eqn:Eb.
  - apply bind_args_Ok in Eb as [_ Hd]. exfalso.
    apply (Hd i a Hi Hp). unfold required in Hreq.
    by destruct (attr_default a).
  - apply bind_args_raise in Eb. by subst e.
Qed.

(** What a [Binary] or [BazelBinary] constructed without [dependencies]
    looks like: the instance, then its own new empty list. *)
Lemma new_binary_default (cls : pyclass) (args : list value)
    (kwargs : gmap string value) (h h' : heap) (self : loc) :
  cls = Binary ∨ cls = BazelBinary →
  passed args kwargs 1 "dependencies" = None →
  new cls args kwargs h = Ok (VRef self, h') →
  self = length h
  ∧ ∃ d, d !! "dependencies" = Some (VRef (S (length h)))
         ∧ h' = h ++ [OInstance cls d; OList []].
Proof.
  intros Hcls Hdeps H.
  assert (∃ attr, new cls args kwargs h
    = instantiate cls
        [attrib attr NOTHING None; attrib "dependencies" Factory_list None]
        args kwargs h) as [attr Hnew].
  { destruct Hcls as [-> | ->]; by eexists. }
  rewrite Hnew in H.
  apply instantiate_binary_inv in H as (v & _ & [= ->] & H).
  rewrite Hdeps in H. split; [done|].
  eexists. split; [|exact H]. by rewrite lookup_insert_eq.
Qed.

(** ** Default dependencies *)

(** C8: a [Binary] or [BazelBinary] constructed without [dependencies]
    refers to an empty list that did not exist before the call. For two
    such instances, the second constructed in any later heap, the lists
    are different objects: in any heap, appending to one leaves the
    other as it is. *)
Theorem default_dependencies_are_fresh_and_independent
    (cls1 cls2 : pyclass) (args1 args2 : list value)
    (kwargs1 kwargs2 : gmap string value) (h0 h1 h1' h2 : heap)
    (b1 b2 : loc) :
  cls1 = Binary ∨ cls1 = BazelBinary →
  cls2 = Binary ∨ cls2 = BazelBinary →
  passed args1 kwargs1 1 "dependencies" = None →
  passed args2 kwargs2 1 "dependencies" = None →
  new cls1 args1 kwargs1 h0 = Ok (VRef b1, h1) →
  (length h1 ≤ length h1')%nat →
  new cls2 args2 kwargs2 h1' = Ok (VRef b2, h2) →
  ∃ d1 d2 : loc,
    getattr b1 "dependencies" h1 = Ok (VRef d1)
    ∧ getattr b2 "dependencies" h2 = Ok (VRef d2)
    ∧ list_items d1 h1 = Some []
    ∧ list_items d2 h2 = Some []
    ∧ h0 !! d1 = None
    ∧ h1' !! d2 = None
    ∧ d1 ≠ d2
    ∧ (∀ (h : heap) v h3, list_append d1 v h = Ok h3 → h3 !! d2 = h !! d2)
    ∧ (∀ (h : heap) v h3, list_append d2 v h = Ok h3 → h3 !! d1 = h !! d1)
    ∧ (∀ v, ∃ h3, list_append d2 v h2 = Ok h3
                  ∧ list_items d2 h3 = Some [v]
                  ∧ list_items d1 h3 = list_items d1 h2).
Proof.
  intros Hc1 Hc2 Hp1 Hp2 H1 Hgrow H2.
  apply new_binary_default in H1 as (-> & d1 & Hd1 & ->); [|done..].
  apply new_binary_default in H2 as (-> & d2 & Hd2 & ->); [|done..].
  exists (S (length h0)), (S (length h1')).
  assert (S (length h0) < length h1')%nat as Hlt.
  { rewrite length_app in Hgrow. simpl in Hgrow. lia. }
  assert (∀ (h : heap) o, (h ++ [o; OList []]) !! S (length h) = Some (OList []))
    as Hlist.
  { intros h o. rewrite cons_middle, app_assoc. apply list_lookup_middle.
    rewrite length_app. simpl. lia. }
  split; [by rewrite getattr_at, Hd1|]. split; [by rewrite getattr_at, Hd2|].
  split; [unfold list_items; by rewrite Hlist|].
  split; [unfold list_items; by rewrite Hlist|].
  split; [apply lookup_ge_None; lia|]. split; [apply lookup_ge_None; lia|].
  split; [lia|].
  assert (∀ (a b : loc) (h : heap) v h3,
            a ≠ b → list_append a v h = Ok h3 → h3 !! b = h !! b) as Hother.
  { intros a b h v h3 Hab Happ. unfold list_append in Happ.
    destruct (h !! a) as [[items|]|]; try done.
    injection Happ as <-. by rewrite list_lookup_insert_ne. }
  split; [intros h v h3; apply Hother; lia|].
  split; [intros h v h3; apply Hother; lia|].
  intros v. unfold list_append. rewrite Hlist. eexists. split; [done|].
  unfold list_items. split.
  - rewrite list_lookup_insert_eq; [done|].
    rewrite length_app. simpl. lia.
  - by rewrite list_lookup_insert_ne by lia.
Qed.

(** ** [PythonContainer] *)

(** C9: a [PythonContainer] stores the [entrypoint] and the
    [docker_instructions] it is passed as they are ([None] when no
    [docker_instructions] is passed), and construction changes no object
    that existed before, so a list passed as [docker_instructions] keeps
    its items. Constructed with [entrypoint=ModuleName("pkg.main")], its
    [entrypoint] reads back as [ModuleName("pkg.main")]. *)
Theorem python_container_stores_arguments :
  (∀ (args : list value) (kwargs : gmap string value) (h h' : heap)
     (self : loc),
     new PythonContainer args kwargs h = Ok (VRef self, h') →
     (∃ e, passed args kwargs 0 "entrypoint" = Some e
           ∧ getattr self "entrypoint" h' = Ok e)
     ∧ getattr self "docker_instructions" h'
       = Ok (default VNone (passed args kwargs 3 "docker_instructions"))
     ∧ (∀ l o, h !! l = Some o → h' !! l = Some o)
     ∧ (∀ l items,
          passed args kwargs 3 "docker_instructions" = Some (VRef l) →
          list_items l h = Some items →
          getattr self "docker_instructions" h' = Ok (VRef l)
          ∧ list_items l h' = Some items))
  ∧ (∀ h : heap, ∃ h',
       new PythonContainer []
         {[ "entrypoint" := ModuleName (VStr (lit "pkg.main")) ]} h
       = Ok (VRef (length h), h')
       ∧ getattr (length h) "entrypoint" h'
         = Ok (ModuleName (VStr (lit "pkg.main")))).
Proof.
  split.
  - intros args kwargs h h' self H.
    apply new_PythonContainer_inv in H as (e & s & He & _ & [= ->] & ->).
    match goal with
    | |- context [OInstance PythonContainer ?m] =>
        assert (m !! "entrypoint" = Some e) as Hde
          by (by rewrite !lookup_insert_ne, lookup_insert_eq by done);
        assert (m !! "docker_instructions"
                = Some (default VNone
                          (passed args kwargs 3 "docker_instructions"))) as Hdi
          by (by rewrite lookup_insert_eq);
        generalize dependent m
    end.
    intros d Hde Hdi.
    assert (∀ l o, h !! l = Some o →
              (h ++ [OInstance PythonContainer d]) !! l = Some o)
      as Hframe by (intros l o Hl; by apply lookup_app_l_Some).
    split; [|split; [|split]].
    + exists e. split; [done|]. by rewrite getattr_at, Hde.
    + by rewrite getattr_at, Hdi.
    + exact Hframe.
    + intros l items Hl Hitems. split.
      * by rewrite getattr_at, Hdi, Hl.
      * unfold list_items in *.
        destruct (h !! l) as [o|] eqn:E; [|done].
        by rewrite (Hframe _ _ E).
  - intros h. eexists. split.
    + unfold new, instantiate.
      set (kw := {[ "entrypoint" := ModuleName (VStr (lit "pkg.main")) ]}
                 : gmap string value).
      assert (bind_args (class_attrs PythonContainer) [] kw
              = Ok (imap (λ j a, (a, passed [] kw j (attr_name a)))
                      (class_attrs PythonContainer))) as ->
        by (vm_compute; reflexivity).
      assert (passed [] kw 0 "entrypoint"
              = Some (ModuleName (VStr (lit "pkg.main")))) as He
        by reflexivity.
      assert (passed [] kw 1 "path" = None) as Hp by reflexivity.
      assert (passed [] kw 2 "base_image" = None) as Hb by reflexivity.
      assert (passed [] kw 3 "docker_instructions" = None) as Hd
        by reflexivity.
      simpl. rewrite He, Hp, Hb, Hd. simpl.
      repeat (rewrite store_attr_at; simpl). reflexivity.
    + rewrite getattr_at.
      by rewrite !lookup_insert_ne, lookup_insert_eq by done.
Qed.

(** ** Mutation *)

(** An assignment to a name that is no data descriptor writes the
    [__dict__] of the instance. *)
Lemma setattr_instance (self : loc) (attr : string) (v : value) (h : heap)
    (cls : pyclass) (d : gmap string value) :
  h !! self = Some (OInstance cls d) →
  attr ∉ read_only_attrs →
  attr ∉ typed_attrs →
  setattr self attr v h = Ok (<[self := OInstance cls (<[attr := v]> d)]> h).
Proof.
  intros Hs Hro Hty. unfold setattr, store_attr. rewrite Hs. simpl.
  by rewrite !bool_decide_eq_false_2 by done.
Qed.

(** Membership in a list of names written out, by comparing the names. *)
Ltac not_in_names :=
  let H := fresh "H" in
  intros H;
  repeat (apply elem_of_cons in H as [H|H]; [discriminate H|]);
  by apply elem_of_nil in H.

(** No declared attribute has the name of a data descriptor. *)
Lemma declared_attr_writable (cls : pyclass) (attr : string) :
  attr ∈ attr_name <$> class_attrs cls →
  (attr ∉ read_only_attrs) ∧ (attr ∉ typed_attrs).
Proof.
  intros Hin. unfold read_only_attrs, typed_attrs.
  destruct cls; simpl in Hin;
    repeat (apply elem_of_cons in Hin as [->|Hin]);
    try (by apply elem_of_nil in Hin); split; not_in_names.
Qed.

Lemma name_attr_writable (cls : pyclass) :
  (name_attr cls ∉ read_only_attrs) ∧ (name_attr cls ∉ typed_attrs).
Proof.
  unfold read_only_attrs, typed_attrs. destruct cls; split; not_in_names.
Qed.

(** C10 (as amended): no operation of the module, a constructor call or
    a read of [name], changes an object that exists: every object of the
    heap is the same after the operation. The classes are not frozen: an
    assignment to a declared attribute of an instance succeeds, the
    attribute then reads as the value assigned, and the other objects
    are unchanged. The property [name] has no setter: an assignment to
    it raises [AttributeError]. *)
Theorem core_operations_preserve_instances :
  (∀ (op : core_op) (h h' : heap) (v : value),
     run_op op h = Ok (v, h') →
     ∀ l o, h !! l = Some o → h' !! l = Some o)
  ∧ (∀ (self : loc) (attr : string) (v : value) (h : heap) (cls : pyclass)
       (d : gmap string value),
       h !! self = Some (OInstance cls d) →
       attr ∈ attr_name <$> class_attrs cls →
       ∃ h', setattr self attr v h = Ok h'
             ∧ getattr self attr h' = Ok v
             ∧ ∀ l, l ≠ self → h' !! l = h !! l)
  ∧ (∀ (self : loc) (v : value) (h : heap) (cls : pyclass)
       (d : gmap string value),
       h !! self = Some (OInstance cls d) →
       setattr self "name" v h = Raise AttributeError).
Proof.
  split; [|split].
  - intros [cls args kwargs|self] h h' v; simpl; intros H l o Hl.
    + apply instantiate_frame in H as (_ & d & rest & ->).
      by apply lookup_app_l_Some.
    + destruct (name self h); simpl in H; [|done]. by injection H as _ <-.
  - intros self attr v h cls d Hs Hin.
    destruct (declared_attr_writable _ _ Hin) as [Hro Hty].
    eexists. split; [by apply setattr_instance|].
    split.
    + unfold getattr. rewrite list_lookup_insert_eq
        by (by eapply lookup_lt_Some).
      by rewrite lookup_insert_eq.
    + intros l Hl. by rewrite list_lookup_insert_ne.
  - intros self v h cls d Hs. unfold setattr. by rewrite Hs.
Qed.

(** ** Further properties of the derived name *)

Lemma uni_word_not_sep : uni_is_word os_sep = false.
Proof. reflexivity. Qed.

Lemma name_from_path_uni_word (p : str) :
  Forall (λ c, uni_is_word c = true) (_name_from_path p).
Proof.
  rewrite name_from_path_fmap. apply Forall_fmap, Forall_forall.
  intros c _. simpl. destruct (uni_is_word c) eqn:E; [done|].
  apply uni_word_underscore.
Qed.

Lemma name_from_path_uni_word_id (p : str) :
  Forall (λ c, uni_is_word c = true) p → _name_from_path p = p.
Proof.
  intros Hp.
  assert (Forall (λ c, c ∉ [os_sep]) p) as Hsep.
  { eapply Forall_impl; [exact Hp|]. intros c Hc Hin.
    apply list_elem_of_singleton in Hin. subst c.
    by rewrite uni_word_not_sep in Hc. }
  assert (os_sep ∉ p) as Hnot.
  { intros Hin. rewrite Forall_forall in Hsep.
    apply (Hsep _ Hin). by apply list_elem_of_singleton. }
  rewrite name_from_path_fmap, rstrip_id, basename_id by done.
  rewrite <- (list_fmap_id p) at 2. apply list_fmap_ext. intros i c Hc.
  simpl. rewrite Forall_forall in Hp.
  rewrite Hp; [done|]. by eapply list_elem_of_lookup_2.
Qed.

(** X1: deriving a name from a derived name changes nothing. *)
Theorem name_from_path_idempotent (p : str) :
  _name_from_path (_name_from_path p) = _name_from_path p.
Proof. apply name_from_path_uni_word_id, name_from_path_uni_word. Qed.

(** X2: the derived name is never longer than the path, and it is as
    long exactly when the path contains no separator. *)
Theorem name_from_path_length (p : str) :
  (length (_name_from_path p) ≤ length p)%nat
  ∧ (length (_name_from_path p) = length p ↔ os_sep ∉ p).
Proof.
  destruct (path_split p) as (dir & base & n & Hp & Hdir & Hbase & Hnil & Hb).
  rewrite name_from_path_fmap, Hb, length_fmap.
  assert (length p = (length dir + (length base + n))%nat) as Hlen.
  { by rewrite Hp, !length_app, length_replicate. }
  split; [lia|]. split.
  - intros Heq. assert (dir = [] ∧ n = 0%nat) as [-> ->].
    { split; [apply length_zero_iff_nil|]; lia. }
    simpl in Hp. rewrite app_nil_r in Hp. by subst p.
  - intros Hsep. assert (dir = []) as ->.
    { destruct Hdir as [|Hl]; [done|]. exfalso. apply Hsep. rewrite Hp.
      apply elem_of_app. left. by apply last_Some_elem_of. }
    destruct n as [|n]; [simpl in Hlen; lia|].
    exfalso. apply Hsep. rewrite Hp. simpl.
    apply elem_of_app. right. by left.
Qed.

(** X3: a directory part put in front of a path that is not made of
    separators only does not change the derived name. *)
Theorem name_from_path_directory_prefix (dir q : str) :
  last dir = Some os_sep →
  ¬ Forall (λ c, c = os_sep) q →
  _name_from_path (dir ++ q) = _name_from_path q.
Proof.
  intros Hdir Hq.
  destruct (path_split q) as (d & base & n & Hp & Hd & Hbase & Hnil & Hb).
  assert (base ≠ []) as Hne.
  { intros ->. rewrite (Hnil eq_refl) in Hp. simpl in Hp. apply Hq.
    rewrite Hp. by apply Forall_replicate. }
  rewrite !name_from_path_fmap, Hb. f_equal.
  rewrite Hp, app_assoc. apply path_split_basename; [|done..].
  right. destruct Hd as [->|Hl].
  - by rewrite app_nil_r.
  - destruct d as [|x d'] using rev_ind; [done|].
    by rewrite app_assoc, last_snoc in *.
Qed.

(** ** Further properties of construction *)

Lemma bind_params_once (args : list value) (kwargs : gmap string value)
    (params : list Attribute) :
  ∀ (i : nat) (bound : list (Attribute * option value)),
    bind_params args kwargs i params = Ok bound →
    ∀ j a, params !! j = Some a →
      args !! (i + j)%nat = None ∨ kwargs !! attr_name a = None.
Proof.
  induction params as [|a params IH]; intros i bound H j a' Hj; [done|].
  simpl in H. bind_inv H. bind_inv H. destruct j as [|j]; simpl in Hj.
  - injection Hj as <-. rewrite Nat.add_0_r. unfold bind_param in E.
    destruct (args !! i), (kwargs !! attr_name a); try done; eauto.
  - rewrite Nat.add_succ_r. by eapply (IH (S i)).
Qed.

Lemma bind_params_complete (args : list value) (kwargs : gmap string value)
    (params : list Attribute) :
  ∀ i : nat,
    (∀ j a, params !! j = Some a →
       (args !! (i + j)%nat = None ∨ kwargs !! attr_name a = None)
       ∧ (required a = true →
          passed args kwargs (i + j) (attr_name a) ≠ None)) →
    ∃ bound, bind_params args kwargs i params = Ok bound.
Proof.
  induction params as [|a params IH]; intros i H; simpl; [by eexists|].
  destruct (H 0%nat a eq_refl) as [Honce Hreq]. rewrite Nat.add_0_r in *.
  destruct (IH (S i)) as [rest ->].
  { intros j a' Hj. replace (S i + j)%nat with (i + S j)%nat by lia.
    by apply (H (S j)). }
  unfold bind_param, passed, required in *.
  destruct (args !! i), (kwargs !! attr_name a), (attr_default a);
    simpl; try (by eexists); try (by destruct Honce);
    by destruct (Hreq eq_refl).
Qed.

Lemma bind_args_Ok_binds (params : list Attribute) (args : list value)
    (kwargs : gmap string value) (bound : list (Attribute * option value)) :
  bind_args params args kwargs = Ok bound → binds params args kwargs.
Proof.
  unfold bind_args, binds.
  case_bool_decide as Hlen; simpl; [|done].
  case_bool_decide as Hdom; simpl; [|done]. intros E.
  split; [done|]. split; [done|]. intros i a Hi. split.
  - by apply (bind_params_once _ _ _ _ _ E i a).
  - apply bind_params_Ok in E as [_ Hreq]. intros Hr Hp.
    apply (Hreq i a Hi Hp). unfold required in Hr.
    by destruct (attr_default a).
Qed.

Lemma bind_args_binds (params : list Attribute) (args : list value)
    (kwargs : gmap string value) :
  (binds params args kwargs → ∃ bound, bind_args params args kwargs = Ok bound)
  ∧ (¬ binds params args kwargs → bind_args params args kwargs = Raise TypeError).
Proof.
  split.
  - unfold bind_args, binds. intros (Hlen & Hdom & Hpar).
    rewrite !bool_decide_eq_true_2 by done. simpl.
    by apply bind_params_complete.
  - intros Hnot.
    destruct (bind_args params args kwargs) as [bound|e] eqn:E.
    + by apply bind_args_Ok_binds in E.
    + apply bind_args_raise in E. by subst e.
Qed.

(** An [__init__] without converters, on arguments that bound, returns. *)
Lemma init_body_total (h0 : heap) (cls : pyclass)
    (bound : list (Attribute * option value)) :
  Forall (λ b, attr_converter b.1 = None
               ∧ (b.2 = None → attr_default b.1 ≠ NOTHING)) bound →
  ∀ (d : gmap string value) (rest : heap),
    ∃ h', init_body (length h0) bound (h0 ++ OInstance cls d :: rest) = Ok h'.
Proof.
  induction 1 as [|[a arg] bound [Hconv Hdef] _ IH]; intros d rest; simpl.
  - by eexists.
  - simpl in Hconv, Hdef. rewrite Hconv.
    destruct arg as [v|]; simpl.
    + rewrite store_attr_at. simpl. apply IH.
    + destruct (attr_default a) as [|dv|]; simpl.
      * by destruct (Hdef eq_refl).
      * rewrite store_attr_at. simpl. apply IH.
      * rewrite <- app_assoc. simpl. rewrite store_attr_at. simpl. apply IH.
Qed.

(** X4: a constructor call whose arguments do not bind raises
    [TypeError]; one whose arguments bind returns a reference to a new
    instance, for [PythonContainer] when the path, passed or ["."], is a
    [str]. *)
Theorem construction_succeeds_when_arguments_bind
    (cls : pyclass) (args : list value) (kwargs : gmap string value)
    (h : heap) :
  (¬ binds (class_attrs cls) args kwargs →
   new cls args kwargs h = Raise TypeError)
  ∧ (binds (class_attrs cls) args kwargs →
     (cls = PythonContainer →
      ∃ s, default (VStr (lit ".")) (passed args kwargs 1 "path") = VStr s) →
     ∃ h', new cls args kwargs h = Ok (VRef (length h), h')).
Proof.
  unfold new, instantiate.
  destruct (bind_args_binds (class_attrs cls) args kwargs) as [Hok Herr].
  split.
  - intros Hnot. by rewrite (Herr Hnot).
  - intros Hb Hpath. destruct (Hok Hb) as [bound Hbound]. rewrite Hbound.
    apply bind_args_Ok in Hbound as [-> Hreq]. simpl.
    assert (∀ h0 : heap,
      (∃ h', init_body (length h)
               (imap (λ j a, (a, passed args kwargs j (attr_name a)))
                  (class_attrs cls))
               (h ++ [OInstance cls ∅]) = Ok h') →
      ∃ h', (init_body (length h)
               (imap (λ j a, (a, passed args kwargs j (attr_name a)))
                  (class_attrs cls))
               (h ++ [OInstance cls ∅])
             ≫= λ h'', Ok (VRef (length h), h'')) = Ok (VRef (length h), h'))
      as Hwrap.
    { intros _ [h' ->]. by exists h'. }
    apply (Hwrap h). clear Hwrap.
    destruct cls.
    2-5: apply init_body_total; simpl; repeat constructor; simpl;
         try done; intros Hp; exact (Hreq 0%nat _ eq_refl Hp).
    destruct (Hpath eq_refl) as [s Hs]. simpl.
    destruct (passed args kwargs 0 "entrypoint") as [e|] eqn:Ee;
      [|by destruct (Hreq 0%nat _ eq_refl Ee)].
    simpl. rewrite store_attr_at. simpl.
    destruct (passed args kwargs 1 "path") as [pv|];
      simpl in Hs; subst; simpl;
      destruct (passed args kwargs 2 "base_image");
      destruct (passed args kwargs 3 "docker_instructions"); simpl;
      repeat (rewrite store_attr_at; simpl); by eexists.
Qed.

(** X5: the reference a constructor returns is new, and the instance at
    it has the class called and exactly the attributes the class
    declares. *)
Theorem constructed_instance_has_declared_attributes
    (cls : pyclass) (args : list value) (kwargs : gmap string value)
    (h h' : heap) (self : loc) :
  new cls args kwargs h = Ok (VRef self, h') →
  h !! self = None
  ∧ ∃ d, h' !! self = Some (OInstance cls d)
         ∧ dom d = list_to_set (attr_name <$> class_attrs cls).
Proof.
  intros H.
  destruct (instantiate_frame _ _ _ _ _ _ _ H) as ([= ->] & d0 & rest & Hh').
  split; [by apply lookup_ge_None|].
  destruct cls.
  - apply new_PythonContainer_inv in H as (e & s & _ & _ & _ & ->).
    eexists. split; [by apply list_lookup_middle|].
    rewrite !dom_insert_L, dom_empty_L. simpl. set_solver.
  - apply instantiate_wrapper_inv in H as (v & _ & _ & ->).
    eexists. split; [by apply list_lookup_middle|].
    rewrite !dom_insert_L, dom_empty_L. simpl. set_solver.
  - apply instantiate_binary_inv in H as (v & _ & _ & H).
    destruct (passed args kwargs 1 "dependencies"); subst h';
      (eexists; split; [by apply list_lookup_middle|]);
      rewrite !dom_insert_L, dom_empty_L; simpl; set_solver.
  - apply instantiate_wrapper_inv in H as (v & _ & _ & ->).
    eexists. split; [by apply list_lookup_middle|].
    rewrite !dom_insert_L, dom_empty_L. simpl. set_solver.
  - apply instantiate_binary_inv in H as (v & _ & _ & H).
    destruct (passed args kwargs 1 "dependencies"); subst h';
      (eexists; split; [by apply list_lookup_middle|]);
      rewrite !dom_insert_L, dom_empty_L; simpl; set_solver.
Qed.

(** X6: an attribute without converter reads back as the argument passed
    for it, and as its default value when no argument is passed. *)
Theorem constructor_attribute_round_trip
    (cls : pyclass) (args : list value) (kwargs : gmap string value)
    (h h' : heap) (self : loc) (i : nat) (a : Attribute) :
  new cls args kwargs h = Ok (VRef self, h') →
  class_attrs cls !! i = Some a →
  attr_converter a = None →
  (∀ v, passed args kwargs i (attr_name a) = Some v →
        getattr self (attr_name a) h' = Ok v)
  ∧ (∀ dv, passed args kwargs i (attr_name a) = None →
           attr_default a = Default dv →
           getattr self (attr_name a) h' = Ok dv).
Proof.
  intros H Hi Hconv. destruct cls.
  - apply new_PythonContainer_inv in H as (e & s & He & _ & [= ->] & ->).
    rewrite getattr_at.
    destruct i as [|[|[|[|i]]]]; simpl in Hi; try done;
      injection Hi as <-; simpl in *; try done;
      (split; [intros v Hv | intros dv Hv Hdv]); rewrite Hv in *;
      simplify_eq; simpl; by rewrite ?lookup_insert_ne, lookup_insert_eq by done.
  - apply instantiate_wrapper_inv in H as (v0 & Hv0 & [= ->] & ->).
    rewrite getattr_at. destruct i as [|i]; simpl in Hi; [|done].
    injection Hi as <-. simpl. rewrite Hv0, lookup_insert_eq.
    split; [by intros v [= <-]|done].
  - apply instantiate_binary_inv in H as (v0 & Hv0 & [= ->] & H).
    destruct i as [|[|i]]; simpl in Hi; try done; injection Hi as <-; simpl.
    + rewrite Hv0. split; [intros v [= <-]|done].
      destruct (passed args kwargs 1 "dependencies"); subst h';
        by rewrite getattr_at, lookup_insert_ne, lookup_insert_eq by done.
    + split; [|done]. intros v Hv. rewrite Hv in H. subst h'.
      by rewrite getattr_at, lookup_insert_eq.
  - apply instantiate_wrapper_inv in H as (v0 & Hv0 & [= ->] & ->).
    rewrite getattr_at. destruct i as [|i]; simpl in Hi; [|done].
    injection Hi as <-. simpl. rewrite Hv0, lookup_insert_eq.
    split; [by intros v [= <-]|done].
  - apply instantiate_binary_inv in H as (v0 & Hv0 & [= ->] & H).
    destruct i as [|[|i]]; simpl in Hi; try done; injection Hi as <-; simpl.
    + rewrite Hv0. split; [intros v [= <-]|done].
      destruct (passed args kwargs 1 "dependencies"); subst h';
        by rewrite getattr_at, lookup_insert_ne, lookup_insert_eq by done.
    + split; [|done]. intros v Hv. rewrite Hv in H. subst h'.
      by rewrite getattr_at, lookup_insert_eq.
Qed.

(** X7: a constructor call adds the instance to the heap and nothing
    else, except that a [Binary] or [BazelBinary] called without
    [dependencies] also adds the empty list its [dependencies] refers
    to. *)
Theorem construction_allocates
    (cls : pyclass) (args : list value) (kwargs : gmap string value)
    (h h' : heap) (self : loc) :
  new cls args kwargs h = Ok (VRef self, h') →
  ∃ d,
    ((cls = Binary ∨ cls = BazelBinary)
     ∧ passed args kwargs 1 "dependencies" = None →
     h' = h ++ [OInstance cls d; OList []]
     ∧ d !! "dependencies" = Some (VRef (S (length h))))
    ∧ (¬ ((cls = Binary ∨ cls = BazelBinary)
          ∧ passed args kwargs 1 "dependencies" = None) →
       h' = h ++ [OInstance cls d]).
Proof.
  intros H. destruct cls.
  - apply new_PythonContainer_inv in H as (e & s & _ & _ & _ & ->).
    eexists. split; [by intros [[|] _]|done].
  - apply instantiate_wrapper_inv in H as (v & _ & _ & ->).
    eexists. split; [by intros [[|] _]|done].
  - apply instantiate_binary_inv in H as (v & _ & _ & H).
    destruct (passed args kwargs 1 "dependencies"); subst h'; eexists.
    + split; [by intros [_ Hn]|done].
    + split.
      * intros _. split; [done|]. by rewrite lookup_insert_eq.
      * intros Hn. exfalso. apply Hn. split; [by left|done].
  - apply instantiate_wrapper_inv in H as (v & _ & _ & ->).
    eexists. split; [by intros [[|] _]|done].
  - apply instantiate_binary_inv in H as (v & _ & _ & H).
    destruct (passed args kwargs 1 "dependencies"); subst h'; eexists.
    + split; [by intros [_ Hn]|done].
    + split.
      * intros _. split; [done|]. by rewrite lookup_insert_eq.
      * intros Hn. exfalso. apply Hn. split; [by right|done].
Qed.

(** ** Further properties of [name] *)

(** [name] reads the object at the reference and nothing else. *)
Lemma name_ext (self : loc) (h h' : heap) :
  h' !! self = h !! self → name self h' = name self h.
Proof.
  intros Heq. unfold name, PythonContainer_name, Container_name, Binary_name,
    BazelContainer_name, BazelBinary_name, getattr. by rewrite Heq.
Qed.


Lemma run_op_name (op : core_op) (h h' : heap) (v n : value) (self : loc) :
  run_op op h = Ok (v, h') → name self h = Ok n → name self h' = Ok n.
Proof.
  intros Hop Hn. rewrite <- Hn. apply name_ext.
  destruct op as [cls args kwargs|self']; simpl in Hop.
  - apply instantiate_frame in Hop as (_ & d & rest & ->).
    destruct (h !! self) as [o|] eqn:Hs.
    + by apply lookup_app_l_Some.
    + unfold name in Hn. by rewrite Hs in Hn.
  - destruct (name self' h); simpl in Hop; [|done]. by injection Hop as _ <-.
Qed.

(** X9: a sequence of operations of the module, constructor calls and
    reads of [name] in any order, leaves the [name] of every instance
    that existed before it as it was. *)
Theorem name_unchanged_by_core_operations
    (ops : list core_op) (h h' : heap) (n : value) (self : loc) :
  run_ops ops h = Ok h' →
  name self h = Ok n →
  name self h' = Ok n.
Proof.
  revert h. induction ops as [|op ops IH]; intros h Hops Hn; simpl in Hops.
  - by injection Hops as <-.
  - bind_inv Hops. destruct a as [v h1].
    eapply IH; [exact Hops|]. by eapply run_op_name.
Qed.

(** X10: after an assignment of a [str] to the identifying attribute of
    an instance, its [name] is the derived name of that string as it is:
    for a [PythonContainer] too, [get_absolute_path] is not applied. *)
Theorem name_follows_assignment
    (self : loc) (h : heap) (cls : pyclass) (d : gmap string value)
    (s : str) :
  h !! self = Some (OInstance cls d) →
  ∃ h', setattr self (name_attr cls) (VStr s) h = Ok h'
        ∧ getattr self (name_attr cls) h' = Ok (VStr s)
        ∧ name self h' = Ok (VStr (_name_from_path s)).
Proof.
  intros Hs.
  destruct (name_attr_writable cls) as [Hro Hty].
  rewrite (setattr_instance _ _ _ _ _ _ Hs Hro Hty). eexists.
  split; [done|].
  assert ((<[self := OInstance cls (<[name_attr cls := VStr s]> d)]> h)
            !! self
          = Some (OInstance cls (<[name_attr cls := VStr s]> d))) as Hnew.
  { apply list_lookup_insert_eq. by eapply lookup_lt_Some. }
  split.
  - unfold getattr. by rewrite Hnew, lookup_insert_eq.
  - by rewrite (name_instance _ _ _ _ Hnew), lookup_insert_eq.
Qed.

(** ** Dependencies passed explicitly *)

(** X11: a list passed as [dependencies] is stored by reference. Two
    instances constructed with the same list share it: after an append
    to the list, the [dependencies] of both refer to the list with the
    new item. *)
Theorem explicit_dependencies_are_shared
    (cls1 cls2 : pyclass) (args1 args2 : list value)
    (kwargs1 kwargs2 : gmap string value) (h0 h1 h2 : heap)
    (b1 b2 l : loc) (items : list value) :
  cls1 = Binary ∨ cls1 = BazelBinary →
  cls2 = Binary ∨ cls2 = BazelBinary →
  passed args1 kwargs1 1 "dependencies" = Some (VRef l) →
  passed args2 kwargs2 1 "dependencies" = Some (VRef l) →
  list_items l h0 = Some items →
  new cls1 args1 kwargs1 h0 = Ok (VRef b1, h1) →
  new cls2 args2 kwargs2 h1 = Ok (VRef b2, h2) →
  b1 ≠ b2
  ∧ getattr b1 "dependencies" h2 = Ok (VRef l)
  ∧ getattr b2 "dependencies" h2 = Ok (VRef l)
  ∧ list_items l h2 = Some items
  ∧ ∀ v, ∃ h3, list_append l v h2 = Ok h3
               ∧ getattr b1 "dependencies" h3 = Ok (VRef l)
               ∧ getattr b2 "dependencies" h3 = Ok (VRef l)
               ∧ list_items l h3 = Some (items ++ [v]).
Proof.
  intros Hc1 Hc2 Hp1 Hp2 Hl H1 H2.
  assert (∀ cls args kwargs h h' b,
    cls = Binary ∨ cls = BazelBinary →
    passed args kwargs 1 "dependencies" = Some (VRef l) →
    new cls args kwargs h = Ok (VRef b, h') →
    b = length h
    ∧ ∃ d, d !! "dependencies" = Some (VRef l)
           ∧ h' = h ++ [OInstance cls d]) as Hinv.
  { intros cls args kwargs h h' b Hcls Hp H.
    assert (∃ attr, new cls args kwargs h
      = instantiate cls
          [attrib attr NOTHING None; attrib "dependencies" Factory_list None]
          args kwargs h) as [attr Hnew]
      by (destruct Hcls as [-> | ->]; by eexists).
    rewrite Hnew in H.
    apply instantiate_binary_inv in H as (v & _ & [= ->] & H).
    rewrite Hp in H. split; [done|]. eexists. split; [|exact H].
    by rewrite lookup_insert_eq. }
  apply Hinv in H1 as (-> & d1 & Hd1 & ->); [|done..].
  apply Hinv in H2 as (-> & d2 & Hd2 & ->); [|done..].
  unfold list_items in Hl.
  destruct (h0 !! l) as [[items'|]|] eqn:El; try done.
  injection Hl as ->.
  assert (l < length h0)%nat as Hlt by (by eapply lookup_lt_Some).
  assert (((h0 ++ [OInstance cls1 d1]) ++ [OInstance cls2 d2]) !! l
          = Some (OList items)) as El2.
  { by do 2 apply lookup_app_l_Some. }
  assert (((h0 ++ [OInstance cls1 d1]) ++ [OInstance cls2 d2]) !! length h0
          = Some (OInstance cls1 d1)) as E1.
  { apply lookup_app_l_Some. by apply list_lookup_middle. }
  assert (length (h0 ++ [OInstance cls1 d1]) = S (length h0)) as Hlen1
    by (rewrite length_app; simpl; lia).
  split; [lia|]. split; [unfold getattr; by rewrite E1, Hd1|].
  split; [by rewrite getattr_at, Hd2|].
  split; [unfold list_items; by rewrite El2|].
  intros v. unfold list_append. rewrite El2. eexists. split; [done|].
  split; [|split].
  - unfold getattr. rewrite list_lookup_insert_ne by lia. by rewrite E1, Hd1.
  - unfold getattr. rewrite list_lookup_insert_ne by lia.
    by rewrite list_lookup_middle, Hd2.
  - unfold list_items. rewrite list_lookup_insert_eq; [done|].
    rewrite !length_app. simpl. lia.
Qed.

(** ** The entrypoint tuples *)

(** X12: [ModuleName(...)] and [CommandList(...)] return exactly when the
    call passes the one field, by position or by keyword, and nothing
    else; the tuple then holds the argument as it is. Any other call
    raises [TypeError]. *)
Theorem tuple_new_returns_iff_one_argument
    (t : tuple_class) (args : list value) (kwargs : gmap string value) :
  (∀ v, tuple_new t args kwargs = Ok v ↔
        binds (tuple_fields t) args kwargs
        ∧ ∃ x, passed args kwargs 0
                 (match t with
                  | ModuleName_class => "module_name"
                  | CommandList_class => "commands"
                  end) = Some x
               ∧ v = make_tuple t x)
  ∧ (∀ e, tuple_new t args kwargs = Raise e → e = TypeError).
Proof.
  unfold tuple_new.
  destruct (bind_args_binds (tuple_fields t) args kwargs) as [Hok Herr].
  destruct (bind_args (tuple_fields t) args kwargs) as [bound|e0] eqn:E.
  - pose proof E as Hbinds.
    apply bind_args_Ok in E as [-> Hreq].
    assert (binds (tuple_fields t) args kwargs) as Hb
      by (by eapply bind_args_Ok_binds).
    set (f := match t with
              | ModuleName_class => "module_name"
              | CommandList_class => "commands"
              end).
    assert (∃ x, passed args kwargs 0 f = Some x) as [x Hx].
    { destruct (passed args kwargs 0 f) as [x|] eqn:Ep; [by eexists|].
      exfalso. destruct t; by apply (Hreq 0%nat _ eq_refl Ep). }
    assert (imap (λ j a, (a, passed args kwargs j (attr_name a)))
              (tuple_fields t)
            = [(attrib f NOTHING None, Some x)]) as ->.
    { subst f. destruct t; simpl; by rewrite Hx. }
    simpl. split; [|done]. intros v. split.
    + intros [= <-]. split; [done|]. by exists x.
    + intros (_ & x' & Hx' & ->). congruence.
  - simpl. apply bind_args_raise in E as ->. split; [|by intros e [= <-]].
    intros v. split; [done|]. intros [Hb _].
    destruct (Hok Hb) as [bound Hbound]. congruence.
Qed.

End Executables.

(** ** Examples and counterexamples *)

(** C1, as stated, fails: the name of ["//foo/bar:image.tar"] is
    ["bar_image_tar"], not ["foo_bar_image_tar"], and the two dashes of
    ["a--b"] give two underscores, not one. *)
Lemma name_from_path_runs_counterexample :
  (∀ tbl, _name_from_path tbl (lit "//foo/bar:image.tar")
          = lit "bar_image_tar")
  ∧ lit "bar_image_tar" ≠ lit "foo_bar_image_tar"
  ∧ (∀ tbl, _name_from_path tbl (lit "a--b") = lit "a__b")
  ∧ lit "a__b" ≠ lit "a_b".
Proof. repeat split; done. Qed.

Lemma name_from_path_replaces_each_character_witness :
  _name_from_path no_wide_alnum
    (lit "/a/" ++ lit "b.c" ++ replicate 2 os_sep)
  = (λ c, if uni_is_word no_wide_alnum c then c else underscore)
      <$> lit "b.c"
  ∧ length (_name_from_path no_wide_alnum
              (lit "/a/" ++ lit "b.c" ++ replicate 2 os_sep))
    = length (lit "b.c").
Proof.
  apply (proj1 (proj2
    (name_from_path_replaces_each_character no_wide_alnum))).
  - right. reflexivity.
  - intros H. by repeat (apply elem_of_cons in H as [H|H]; [done|]);
      apply elem_of_nil in H.
  - discriminate.
Defined.

Lemma name_is_derived_from_identifying_string_witness :
  name no_wide_alnum 0
    [OInstance Container {[ "image_path" := VStr (lit "gcr.io/p/img:v1") ]}]
  = Ok (VStr (_name_from_path no_wide_alnum (lit "gcr.io/p/img:v1"))).
Proof.
  apply (proj1 (name_is_derived_from_identifying_string
                  no_wide_alnum under_root
                  [VStr (lit "gcr.io/p/img:v1")] ∅ [] _ 0%nat));
    reflexivity.
Defined.

(** C3, as stated, fails: U+00E9 is a letter, so [\W] does not match it
    and it stays in the name, and it is not in [[A-Za-z0-9_]]. *)
Lemma name_from_path_latin1_counterexample :
  (∀ tbl, _name_from_path tbl [233] = [233])
  ∧ ¬ Forall (λ c, ascii_word c = true) [233].
Proof.
  split; [done|]. intros H. apply Forall_cons in H as [H _]. done.
Qed.

Lemma name_from_path_word_characters_witness :
  Forall (λ c, ascii_word c = true)
    (_name_from_path no_wide_alnum (lit "a/b-c")).
Proof.
  apply (proj2 (name_from_path_word_characters no_wide_alnum (lit "a/b-c"))).
  repeat constructor.
Defined.

(** C5, as stated, fails: the derived name of the empty string and of a
    string of separators is empty, and so is the [name] of a [Container]
    constructed with such an [image_path]. *)
Lemma empty_name_counterexample :
  (∀ tbl, _name_from_path tbl [] = []
          ∧ _name_from_path tbl (lit "///") = [])
  ∧ (∀ tbl gap,
       new gap Container [VStr (lit "///")] ∅ []
       = Ok (VRef 0%nat,
             [OInstance Container {[ "image_path" := VStr (lit "///") ]}])
       ∧ name tbl 0
           [OInstance Container {[ "image_path" := VStr (lit "///") ]}]
         = Ok (VStr [])).
Proof. repeat split; done. Qed.

Lemma derived_name_empty_iff_only_separators_witness :
  name no_wide_alnum 0
    [OInstance BazelContainer {[ "label" := VStr (lit "//x:y") ]}]
  = Ok (VStr (_name_from_path no_wide_alnum (lit "//x:y")))
  ∧ (name no_wide_alnum 0
       [OInstance BazelContainer {[ "label" := VStr (lit "//x:y") ]}]
     = Ok (VStr []) ↔ Forall (λ c, c = os_sep) (lit "//x:y")).
Proof.
  apply (proj2 (derived_name_empty_iff_only_separators no_wide_alnum) 0%nat
           [OInstance BazelContainer {[ "label" := VStr (lit "//x:y") ]}]
           BazelContainer {[ "label" := VStr (lit "//x:y") ]});
    reflexivity.
Defined.

Lemma name_from_path_word_identity_witness :
  _name_from_path no_wide_alnum (lit "train_v2") = basename (lit "train_v2")
  ∧ basename (lit "train_v2") = lit "train_v2".
Proof.
  apply (proj1 (name_from_path_word_identity no_wide_alnum)).
  repeat constructor.
Defined.

Lemma missing_required_attribute_raises_witness :
  new under_root PythonContainer []
    {[ "path" := VStr (lit "/src") ]} [] = Raise TypeError.
Proof.
  apply (proj1 (missing_required_attribute_raises under_root)
           PythonContainer 0%nat (attrib "entrypoint" NOTHING None));
    reflexivity.
Defined.

Lemma default_dependencies_witness :
  ∃ d1 d2 : loc,
    getattr 0 "dependencies" heap_one_binary = Ok (VRef d1)
    ∧ getattr 2 "dependencies" heap_two_binaries = Ok (VRef d2)
    ∧ list_items d1 heap_one_binary = Some []
    ∧ list_items d2 heap_two_binaries = Some []
    ∧ ([] : heap) !! d1 = None
    ∧ heap_one_binary !! d2 = None
    ∧ d1 ≠ d2
    ∧ (∀ (h : heap) v h3, list_append d1 v h = Ok h3 → h3 !! d2 = h !! d2)
    ∧ (∀ (h : heap) v h3, list_append d2 v h = Ok h3 → h3 !! d1 = h !! d1)
    ∧ (∀ v, ∃ h3, list_append d2 v heap_two_binaries = Ok h3
                  ∧ list_items d2 h3 = Some [v]
                  ∧ list_items d1 h3 = list_items d1 heap_two_binaries).
Proof.
  apply (default_dependencies_are_fresh_and_independent under_root
           Binary BazelBinary [VStr (lit "/bin/a")] []
           ∅ {[ "label" := VStr (lit "//b:c") ]}
           [] heap_one_binary heap_one_binary heap_two_binaries).
  - by left.
  - by right.
  - reflexivity.
  - reflexivity.
  - reflexivity.
  - reflexivity.
  - reflexivity.
Defined.

Lemma python_container_stores_arguments_witness :
  getattr 1 "docker_instructions" heap_python_container = Ok (VRef 0%nat)
  ∧ list_items 0 heap_python_container
    = Some [VStr (lit "COPY cifar10/ cifar10"); VStr (lit "WORKDIR cifar10")].
Proof.
  refine (proj2 (proj2 (proj2
    (proj1 (python_container_stores_arguments under_root)
       [] (<["docker_instructions" := VRef 0%nat]>
             {[ "entrypoint" := ModuleName (VStr (lit "pkg.main")) ]})
       heap_instructions heap_python_container 1%nat _)))
    0%nat _ _ _); reflexivity.
Defined.

(** C10, as stated, fails: the classes are not frozen, so an assignment
    to an attribute of an instance succeeds and changes it, and with it
    the [name]. *)
Lemma attribute_assignment_counterexample :
  ∃ h1 h2 : heap,
    (∀ gap, new gap Container [VStr (lit "a")] ∅ [] = Ok (VRef 0%nat, h1))
    ∧ setattr 0 "image_path" (VStr (lit "b")) h1 = Ok h2
    ∧ getattr 0 "image_path" h1 = Ok (VStr (lit "a"))
    ∧ getattr 0 "image_path" h2 = Ok (VStr (lit "b"))
    ∧ (∀ tbl, name tbl 0 h1 = Ok (VStr (lit "a"))
              ∧ name tbl 0 h2 = Ok (VStr (lit "b"))).
Proof.
  exists [OInstance Container {[ "image_path" := VStr (lit "a") ]}],
         [OInstance Container {[ "image_path" := VStr (lit "b") ]}].
  repeat split; done.
Qed.

Lemma core_operations_preserve_instances_witness :
  [OInstance Container {[ "image_path" := VStr (lit "a") ]};
   OInstance BazelContainer {[ "label" := VStr (lit "//b:c") ]}] !! 0%nat
  = Some (OInstance Container {[ "image_path" := VStr (lit "a") ]}).
Proof.
  apply (proj1 (core_operations_preserve_instances no_wide_alnum under_root)
           (Construct BazelContainer [] {[ "label" := VStr (lit "//b:c") ]})
           [OInstance Container {[ "image_path" := VStr (lit "a") ]}]
           _ (VRef 1)); reflexivity.
Defined.

(** ** Examples for the further properties *)

Lemma name_from_path_directory_prefix_witness :
  _name_from_path no_wide_alnum (lit "/home/u/" ++ lit "proj/cifar10")
  = _name_from_path no_wide_alnum (lit "proj/cifar10").
Proof.
  apply (name_from_path_directory_prefix no_wide_alnum).
  - reflexivity.
  - intros H. apply Forall_cons in H as [H _]. done.
Defined.

Lemma construction_succeeds_when_arguments_bind_witness :
  ∃ h', new under_root Container [] {[ "image_path" := VStr (lit "a") ]} []
        = Ok (VRef (length ([] : heap)), h').
Proof.
  apply (proj2 (construction_succeeds_when_arguments_bind under_root
                  Container [] {[ "image_path" := VStr (lit "a") ]} [])).
  - split; [simpl; lia|]. split; [set_solver|].
    intros [|i] a Hi; simpl in Hi; [|done]. injection Hi as <-.
    split; [by left|done].
  - done.
Defined.

Lemma constructed_instance_has_declared_attributes_witness :
  ([] : heap) !! 0%nat = None
  ∧ ∃ d, heap_one_binary !! 0%nat = Some (OInstance Binary d)
         ∧ dom d = list_to_set (attr_name <$> class_attrs under_root Binary).
Proof.
  apply (constructed_instance_has_declared_attributes under_root
           Binary [VStr (lit "/bin/a")] ∅ []).
  reflexivity.
Defined.

Lemma constructor_attribute_round_trip_witness :
  getattr 0 "path" heap_one_binary = Ok (VStr (lit "/bin/a")).
Proof.
  refine (proj1 (constructor_attribute_round_trip under_root
                   Binary [VStr (lit "/bin/a")] ∅ [] heap_one_binary
                   0%nat 0%nat (attrib "path" NOTHING None) _ _ _) _ _);
    reflexivity.
Defined.

Lemma construction_allocates_witness :
  ∃ d,
    ((Binary = Binary ∨ Binary = BazelBinary)
     ∧ passed [VStr (lit "/bin/a")] (∅ : gmap string value) 1 "dependencies"
       = None →
     heap_one_binary = [] ++ [OInstance Binary d; OList []]
     ∧ d !! "dependencies" = Some (VRef (S (length ([] : heap)))))
    ∧ (¬ ((Binary = Binary ∨ Binary = BazelBinary)
          ∧ passed [VStr (lit "/bin/a")] (∅ : gmap string value) 1
              "dependencies" = None) →
       heap_one_binary = [] ++ [OInstance Binary d]).
Proof.
  apply (construction_allocates under_root
           Binary [VStr (lit "/bin/a")] ∅ [] heap_one_binary 0%nat).
  reflexivity.
Defined.


Lemma name_unchanged_by_core_operations_witness :
  name no_wide_alnum 0 heap_two_binaries = Ok (VStr (lit "a")).
Proof.
  apply (name_unchanged_by_core_operations no_wide_alnum under_root
           [ReadName 0%nat;
            Construct BazelBinary [] {[ "label" := VStr (lit "//b:c") ]}]
           heap_one_binary);
    reflexivity.
Defined.

Lemma name_follows_assignment_witness :
  ∃ h', setattr 1 (name_attr PythonContainer) (VStr (lit "rel/dir"))
          heap_python_container = Ok h'
        ∧ getattr 1 (name_attr PythonContainer) h'
          = Ok (VStr (lit "rel/dir"))
        ∧ name no_wide_alnum 1 h'
          = Ok (VStr (_name_from_path no_wide_alnum (lit "rel/dir"))).
Proof.
  refine (name_follows_assignment no_wide_alnum 1%nat heap_python_container
            PythonContainer _ (lit "rel/dir") _).
  reflexivity.
Defined.

Lemma explicit_dependencies_are_shared_witness :
  (1 ≠ 2)%nat
  ∧ getattr 1 "dependencies" heap_shared_dependencies = Ok (VRef 0%nat)
  ∧ getattr 2 "dependencies" heap_shared_dependencies = Ok (VRef 0%nat)
  ∧ list_items 0 heap_shared_dependencies
    = Some [VStr (lit "COPY cifar10/ cifar10"); VStr (lit "WORKDIR cifar10")]
  ∧ ∀ v, ∃ h3,
      list_append 0 v heap_shared_dependencies = Ok h3
      ∧ getattr 1 "dependencies" h3 = Ok (VRef 0%nat)
      ∧ getattr 2 "dependencies" h3 = Ok (VRef 0%nat)
      ∧ list_items 0 h3
        = Some ([VStr (lit "COPY cifar10/ cifar10");
                 VStr (lit "WORKDIR cifar10")] ++ [v]).
Proof.
  apply (explicit_dependencies_are_shared under_root
           Binary BazelBinary
           [VStr (lit "/bin/a"); VRef 0%nat] [VStr (lit "//b:c")]
           ∅ {[ "dependencies" := VRef 0%nat ]}
           heap_instructions
           (heap_instructions ++
            [OInstance Binary
               (<["dependencies" := VRef 0%nat]>
                  {[ "path" := VStr (lit "/bin/a") ]})]));
    first [by left | by right | reflexivity].
Defined.

Lemma tuple_new_returns_iff_one_argument_witness :
  binds (tuple_fields ModuleName_class) []
    {[ "module_name" := VStr (lit "pkg.main") ]}
  ∧ ∃ x, passed [] ({[ "module_name" := VStr (lit "pkg.main") ]}
                      : gmap string value) 0 "module_name" = Some x
         ∧ ModuleName (VStr (lit "pkg.main")) = make_tuple ModuleName_class x.
Proof.
  apply (proj1 (proj1 (tuple_new_returns_iff_one_argument ModuleName_class
                         [] {[ "module_name" := VStr (lit "pkg.main") ]})
                  (ModuleName (VStr (lit "pkg.main"))))).
  reflexivity.
Defined.
